(** * Activity execution context of the workflow client (internal/activity.go)

    A shallow embedding of the Go file [internal/activity.go]: the two
    context constructors [WithActivityTask] and [WithLocalActivityTask], the
    accessors ([GetActivityInfo], [HasHeartbeatDetails],
    [GetHeartbeatDetails], [GetActivityLogger], ...) and the heartbeat
    operation [RecordActivityHeartbeat].

    Conventions of the embedding.
    - A Go pointer, channel or interface value whose nil-ness the code (or
      the zero initialisation of a struct literal) distinguishes is an
      [option]; [None] is nil.
    - A panic is an explicit [Panicked] outcome.
    - The calls that leave this file (service invoker, logger, codec) are
      recorded, in order, in the [trace] of a [World]. *)

From Stdlib Require Import ZArith List String Bool Lia.
Import ListNotations.
Local Open Scope string_scope.
Local Open Scope list_scope.
Local Open Scope Z_scope.

(** ** Time

    [time.Time] is an instant and [time.Duration] a signed count of
    nanoseconds.  An instant is represented by its distance, in nanoseconds,
    from the zero value [time.Time{}]; [Time.Add] is then addition and
    [Time.Before] the strict order.  (The library's own arithmetic on seconds
    is 64-bit and is exact for every instant the wire format can carry.) *)

Definition Time := Z.
Definition Duration := Z.

Definition zeroTime : Time := 0.
Definition Time_Add (t : Time) (d : Duration) : Time := t + d.
Definition Time_Before (t u : Time) : bool := t <? u.

(** ** Opaque collaborators

    The types this file only passes around.  [Logger], [Scope] and
    [DataConverter] are Go interface types and include the nil interface. *)

Class Handles : Type := {
  ServiceInvoker : Type;      (* a non-nil ServiceInvoker implementation *)
  Logger : Type;              (* log.Logger *)
  Scope : Type;               (* tally.Scope *)
  DataConverter : Type;       (* converter.DataConverter *)
  Tracer : Type;              (* a non-nil opentracing.Tracer *)
  ContextPropagator : Type;
  StopChannel : Type;         (* a non-nil <-chan struct{} *)
  Payloads : Type;            (* commonpb.Payloads *)
  GoError : Type;             (* a non-nil error *)
  Value : Type;               (* a non-nil interface{} value *)
  EncodedValues : Type;       (* converter.EncodedValues *)
  LocalActivityID : Type;     (* the type of localActivityTask.activityID *)
  InvokerState : Type;        (* whatever the service invokers keep *)
  Memory : Type               (* the caller's variables behind output pointers *)
}.

Section DataModel.
Context {H : Handles}.

(** [interface{}]: the nil interface or a value.  A typed nil pointer stored
    in an interface is a value: it compares unequal to nil. *)
Definition iface : Type := option Value.

(** [error]: nil or an error. *)
Definition error : Type := option GoError.

Record ActivityType : Type := { ActivityType_Name : string }.
Record WorkflowType : Type := { WorkflowType_Name : string }.
Record WorkflowExecution : Type := { ID : string; RunID : string }.

Record ActivityInfo : Type := {
  TaskToken : option (list Byte.byte);
  WorkflowType_ : option WorkflowType;
  WorkflowNamespace : string;
  WorkflowExecution_ : WorkflowExecution;
  ActivityID : string;
  ActivityType_ : ActivityType;
  TaskQueue : string;
  HeartbeatTimeout : Duration;
  ScheduledTime : Time;
  StartedTime : Time;
  Deadline : Time;
  Attempt : Z
}.

(** The struct [activityEnvironment] (declared next to [getActivityEnv],
    outside this file); the fields are the ones the two constructors set. *)
Record activityEnvironment : Type := {
  taskToken : option (list Byte.byte);
  workflowExecution : WorkflowExecution;
  activityID : string;
  activityType : ActivityType;
  serviceInvoker : option ServiceInvoker;
  logger : Logger;
  metricsScope : Scope;
  isLocalActivity : bool;
  heartbeatTimeout : Duration;
  deadline : Time;
  scheduledTime : Time;
  startedTime : Time;
  taskQueue : string;
  dataConverter : DataConverter;
  attempt : Z;
  heartbeatDetails : option Payloads;
  workflowType : option WorkflowType;
  workflowNamespace : string;
  workerStopChannel : option StopChannel;
  contextPropagators : list ContextPropagator;
  tracer : option Tracer
}.

(** ** context.Context

    A context is a chain of key/value bindings over the background context;
    [Value] finds the binding nearest to the head. *)

Inductive ContextKey : Type :=
| activityEnvContextKey
| otherContextKey (name : string).

Inductive ContextValue : Type :=
| EnvPtr (env : activityEnvironment)
| OtherValue (v : iface).

Inductive Context : Type :=
| Background
| WithValue (parent : Context) (key : ContextKey) (val : ContextValue).

Definition ContextKey_eqb (k1 k2 : ContextKey) : bool :=
  match k1, k2 with
  | activityEnvContextKey, activityEnvContextKey => true
  | otherContextKey a, otherContextKey b => String.eqb a b
  | _, _ => false
  end.

Fixpoint Context_Value (ctx : Context) (key : ContextKey) : option ContextValue :=
  match ctx with
  | Background => None
  | WithValue parent k v =>
      if ContextKey_eqb k key then Some v else Context_Value parent key
  end.

(** ** Outcomes *)

Inductive PanicValue : Type :=
| PanicError (e : GoError)          (* panic(err) *)
| PanicRuntime (msg : string).      (* nil dereference, failed assertion *)

Inductive Outcome (A : Type) : Type :=
| Returned (a : A)
| Panicked (p : PanicValue).
#[local] Arguments Returned {A} a.
#[local] Arguments Panicked {A} p.

Definition Outcome_bind {A B : Type} (o : Outcome A) (k : A -> Outcome B) : Outcome B :=
  match o with
  | Returned a => k a
  | Panicked p => Panicked p
  end.

(** Dereferencing a pointer. *)
Definition deref {A : Type} (p : option A) : Outcome A :=
  match p with
  | Some a => Returned a
  | None => Panicked (PanicRuntime "invalid memory address or nil pointer dereference")
  end.

(** ** The wire task: workflowservice.PollActivityTaskQueueResponse *)

Record pbWorkflowExecution : Type := { WorkflowId : string; RunId : string }.
Record pbActivityType : Type := { pbActivityType_Name : string }.
Record pbWorkflowType : Type := { pbWorkflowType_Name : string }.

Record PollActivityTaskQueueResponse : Type := {
  task_TaskToken : option (list Byte.byte);
  task_WorkflowNamespace : string;
  task_WorkflowType : option pbWorkflowType;
  task_WorkflowExecution : option pbWorkflowExecution;
  task_ActivityType : option pbActivityType;
  task_ActivityId : string;
  task_HeartbeatDetails : option Payloads;
  task_ScheduledTime : option Time;
  task_StartedTime : option Time;
  task_Attempt : Z;
  task_ScheduleToCloseTimeout : option Duration;
  task_StartToCloseTimeout : option Duration;
  task_HeartbeatTimeout : option Duration
}.

(** The generated getters are nil-safe: on a nil receiver they give the
    zero value of the field. *)
Definition getter {A B : Type} (zero : B) (f : A -> B) (p : option A) : B :=
  match p with
  | Some a => f a
  | None => zero
  end.

Definition GetScheduledTime := getter None task_ScheduledTime.
Definition GetStartedTime := getter None task_StartedTime.
Definition GetScheduleToCloseTimeout := getter None task_ScheduleToCloseTimeout.
Definition GetStartToCloseTimeout := getter None task_StartToCloseTimeout.
Definition GetHeartbeatTimeout := getter None task_HeartbeatTimeout.
Definition GetAttempt := getter 0 task_Attempt.
Definition pbActivityType_GetName := getter "" pbActivityType_Name.
Definition pbWorkflowType_GetName := getter "" pbWorkflowType_Name.

(** ** The local task: localActivityTask and what it points to *)

Record WorkflowInfo : Type := {
  WorkflowInfo_WorkflowExecution : WorkflowExecution;
  WorkflowInfo_WorkflowType : WorkflowType;
  WorkflowInfo_TaskQueueName : string;
  WorkflowInfo_Namespace : string
}.

Record ExecuteLocalActivityParams : Type := {
  params_ActivityType : string;
  params_WorkflowInfo : WorkflowInfo
}.

Record localActivityTask : Type := {
  la_activityID : LocalActivityID;
  la_params : ExecuteLocalActivityParams;
  la_attempt : Z
}.

(** ** What leaves this file *)

(** The variadic key/value arguments of the logger. *)
Inductive LogField : Type :=
| LStr (s : string)
| LInt (n : Z)
| LErr (e : GoError).

Inductive Event : Type :=
| EvEncodeArgs (dc : DataConverter) (args : list iface)
| EvHeartbeat (inv : ServiceInvoker) (ctx : Context) (details : option Payloads)
              (skipBatching : bool)
| EvDebug (l : Logger) (msg : string) (keyvals : list LogField).

Record World : Type := {
  invokerState : InvokerState;
  memory : Memory;
  trace : list Event
}.

End DataModel.

Arguments Returned {H A} a.
Arguments Panicked {H A} p.

(** ** Code used by this file and declared elsewhere

    The helpers, constants and interface methods that [activity.go] calls
    but does not define are parameters of the development: every theorem
    holds for any implementation of them. *)

Class Collaborators {H : Handles} : Type := {
  (* internal/common *)
  TimeValue : option Time -> Time;
  DurationValue : option Duration -> Duration;
  (* the log package and the tag constants *)
  log_With : Logger -> list LogField -> Logger;
  tagActivityID : string;
  tagActivityType : string;
  tagAttempt : string;
  tagWorkflowType : string;
  tagWorkflowID : string;
  tagRunID : string;
  tagError : string;
  (* fmt.Sprintf("%v", _) at the type of a local activity id *)
  Sprintf_v : LocalActivityID -> string;
  (* the codec *)
  ErrNoData : GoError;
  encodeArgs : DataConverter -> list iface -> option Payloads * error;
  getDataConverterFromActivityCtx : Context -> DataConverter;
  newEncodedValues : option Payloads -> DataConverter -> EncodedValues;
  EncodedValues_Get : EncodedValues -> list iface -> Memory -> error * Memory;
  (* ServiceInvoker.Heartbeat *)
  ServiceInvoker_Heartbeat :
    ServiceInvoker -> Context -> option Payloads -> bool ->
    InvokerState -> error * InvokerState
}.

Section Operations.
Context {H : Handles} {C : Collaborators}.

(** *** Computations that act on the world and may panic *)

Definition Eff (A : Type) : Type := World -> Outcome A * World.

Definition ret {A : Type} (a : A) : Eff A := fun w => (Returned a, w).

Definition panic {A : Type} (p : PanicValue) : Eff A := fun w => (Panicked p, w).

Definition bind {A B : Type} (m : Eff A) (k : A -> Eff B) : Eff B :=
  fun w =>
    match m w with
    | (Returned a, w') => k a w'
    | (Panicked p, w') => (Panicked p, w')
    end.

Definition lift {A : Type} (o : Outcome A) : Eff A := fun w => (o, w).

Definition emit (e : Event) : Eff unit :=
  fun w => (Returned tt,
            {| invokerState := invokerState w;
               memory := memory w;
               trace := trace w ++ [e] |}).

End Operations.

Declare Scope eff_scope.
Delimit Scope eff_scope with eff.
Notation "x <- m ;; k" := (bind m (fun x => k))
  (at level 61, m at next level, right associativity) : eff_scope.
Notation "m ;; k" := (bind m (fun _ => k))
  (at level 61, right associativity) : eff_scope.
Notation "'try!' x <- o ;; k" := (Outcome_bind o (fun x => k))
  (at level 61, x name, o at next level, right associativity).

Section Activity.
Context {H : Handles} {C : Collaborators}.

(** Modelled from the spec: [getActivityEnv] is declared outside this file.
    It reads the value bound to [activityEnvContextKey]; on a context with
    no attached environment the call is a programming error and fails fast
    (section 4.4 of the specification). *)
Definition getActivityEnv (ctx : Context) : Outcome activityEnvironment :=
  match Context_Value ctx activityEnvContextKey with
  | Some (EnvPtr env) => Returned env
  | _ => Panicked (PanicRuntime "getActivityEnv: Not an activity context")
  end.

(** GetActivityInfo returns information about currently executing activity. *)
Definition GetActivityInfo (ctx : Context) : Outcome ActivityInfo :=
  try! env <- getActivityEnv ctx ;;
  Returned {|
    ActivityID := activityID env;
    ActivityType_ := activityType env;
    TaskToken := taskToken env;
    WorkflowExecution_ := workflowExecution env;
    HeartbeatTimeout := heartbeatTimeout env;
    Deadline := deadline env;
    ScheduledTime := scheduledTime env;
    StartedTime := startedTime env;
    TaskQueue := taskQueue env;
    Attempt := attempt env;
    WorkflowType_ := workflowType env;
    WorkflowNamespace := workflowNamespace env
  |}.

(** HasHeartbeatDetails checks if there is heartbeat details from last attempt. *)
Definition HasHeartbeatDetails (ctx : Context) : Outcome bool :=
  try! env <- getActivityEnv ctx ;;
  Returned (match heartbeatDetails env with Some _ => true | None => false end).

(** GetHeartbeatDetails extracts heartbeat details from last failed attempt. *)
Definition GetHeartbeatDetails (ctx : Context) (d : list iface) : Eff error :=
  (env <- lift (getActivityEnv ctx) ;;
   match heartbeatDetails env with
   | None => ret (Some ErrNoData)
   | Some _ =>
       let encoded := newEncodedValues (heartbeatDetails env) (dataConverter env) in
       fun w =>
         let (err, m) := EncodedValues_Get encoded d (memory w) in
         (Returned err,
          {| invokerState := invokerState w; memory := m; trace := trace w |})
   end)%eff.

Definition GetActivityLogger (ctx : Context) : Outcome Logger :=
  try! env <- getActivityEnv ctx ;;
  Returned (logger env).

Definition GetActivityMetricsScope (ctx : Context) : Outcome Scope :=
  try! env <- getActivityEnv ctx ;;
  Returned (metricsScope env).

Definition GetWorkerStopChannel (ctx : Context) : Outcome (option StopChannel) :=
  try! env <- getActivityEnv ctx ;;
  Returned (workerStopChannel env).

(** [Heartbeat] called on the interface value [inv]. *)
Definition Heartbeat (inv : option ServiceInvoker) (ctx : Context)
    (details : option Payloads) (skipBatching : bool) : Eff error :=
  (i <- lift (deref inv) ;;
   emit (EvHeartbeat i ctx details skipBatching) ;;
   fun w =>
     let (err, s) := ServiceInvoker_Heartbeat i ctx details skipBatching (invokerState w) in
     (Returned err,
      {| invokerState := s; memory := memory w; trace := trace w |}))%eff.

(** [Debug] called on a logger. *)
Definition Debug (l : Logger) (msg : string) (keyvals : list LogField) : Eff unit :=
  emit (EvDebug l msg keyvals).

(** The test [len(details) > 1 || (len(details) == 1 && details[0] != nil)]. *)
Definition hasDetails (details : list iface) : bool :=
  (1 <? List.length details)%nat
  || ((List.length details =? 1)%nat
      && match nth_error details 0 with
         | Some (Some _) => true
         | _ => false
         end).

(** RecordActivityHeartbeat sends heartbeat for the currently executing activity. *)
Definition RecordActivityHeartbeat (ctx : Context) (details : list iface) : Eff unit :=
  (env <- lift (getActivityEnv ctx) ;;
   if isLocalActivity env then
     (* no-op for local activity *)
     ret tt
   else
     data <- (if hasDetails details then
                emit (EvEncodeArgs (getDataConverterFromActivityCtx ctx) details) ;;
                let (data, err) := encodeArgs (getDataConverterFromActivityCtx ctx) details in
                match err with
                | Some e => panic (PanicError e)
                | None => ret data
                end
              else ret None) ;;
     err <- Heartbeat (serviceInvoker env) ctx data false ;;
     match err with
     | Some e =>
         log <- lift (GetActivityLogger ctx) ;;
         Debug log "RecordActivityHeartbeat with error" [LStr tagError; LErr e]
     | None => ret tt
     end)%eff.

(** WithActivityTask adds activity specific information into context.
    The base context is a context value; [task] is a pointer and may be nil,
    in which case the first field read, [task.ActivityId], panics. *)
Definition WithActivityTask
    (ctx : Context)
    (task : option PollActivityTaskQueueResponse)
    (taskQueue : string)
    (invoker : option ServiceInvoker)
    (logger : Logger)
    (scope : Scope)
    (dataConverter : DataConverter)
    (workerStopChannel : option StopChannel)
    (contextPropagators : list ContextPropagator)
    (tracer : option Tracer) : Outcome Context :=
  let scheduled := TimeValue (GetScheduledTime task) in
  let started := TimeValue (GetStartedTime task) in
  let scheduleToCloseTimeout := DurationValue (GetScheduleToCloseTimeout task) in
  let startToCloseTimeout := DurationValue (GetStartToCloseTimeout task) in
  let heartbeatTimeout := DurationValue (GetHeartbeatTimeout task) in
  let startToCloseDeadline := Time_Add started startToCloseTimeout in
  let deadline :=
    if scheduleToCloseTimeout >? 0 then
      let scheduleToCloseDeadline := Time_Add scheduled scheduleToCloseTimeout in
      (* Minimum of the two deadlines. *)
      if Time_Before scheduleToCloseDeadline startToCloseDeadline
      then scheduleToCloseDeadline
      else startToCloseDeadline
    else startToCloseDeadline in
  try! t <- deref task ;;
  try! we <- deref (task_WorkflowExecution t) ;;
  let logger :=
    log_With logger
      [LStr tagActivityID; LStr (task_ActivityId t);
       LStr tagActivityType; LStr (pbActivityType_GetName (task_ActivityType t));
       LStr tagAttempt; LInt (task_Attempt t);
       LStr tagWorkflowType; LStr (pbWorkflowType_GetName (task_WorkflowType t));
       LStr tagWorkflowID; LStr (WorkflowId we);
       LStr tagRunID; LStr (RunId we)] in
  Returned (WithValue ctx activityEnvContextKey (EnvPtr {|
    taskToken := task_TaskToken t;
    serviceInvoker := invoker;
    activityType := {| ActivityType_Name := pbActivityType_GetName (task_ActivityType t) |};
    activityID := task_ActivityId t;
    workflowExecution := {| RunID := RunId we; ID := WorkflowId we |};
    logger := logger;
    metricsScope := scope;
    deadline := deadline;
    heartbeatTimeout := heartbeatTimeout;
    scheduledTime := scheduled;
    startedTime := started;
    taskQueue := taskQueue;
    dataConverter := dataConverter;
    attempt := GetAttempt task;
    heartbeatDetails := task_HeartbeatDetails t;
    workflowType :=
      Some {| WorkflowType_Name := pbWorkflowType_GetName (task_WorkflowType t) |};
    workflowNamespace := task_WorkflowNamespace t;
    workerStopChannel := workerStopChannel;
    contextPropagators := contextPropagators;
    tracer := tracer;
    (* not set by the struct literal: the zero value *)
    isLocalActivity := false
  |})).

(** WithLocalActivityTask adds local activity specific information into context. *)
Definition WithLocalActivityTask
    (ctx : option Context)
    (task : localActivityTask)
    (logger : Logger)
    (scope : Scope)
    (dataConverter : DataConverter) : Context :=
  let ctx := match ctx with
             | None => Background
             | Some c => c
             end in
  let workflowTypeLocal := WorkflowInfo_WorkflowType (params_WorkflowInfo (la_params task)) in
  let workflowType :=
    WorkflowType_Name (WorkflowInfo_WorkflowType (params_WorkflowInfo (la_params task))) in
  let activityType := params_ActivityType (la_params task) in
  let logger :=
    log_With logger
      [LStr tagActivityID; LStr (Sprintf_v (la_activityID task));
       LStr tagActivityType; LStr activityType;
       LStr tagAttempt; LInt (la_attempt task);
       LStr tagWorkflowType; LStr workflowType;
       LStr tagWorkflowID;
       LStr (ID (WorkflowInfo_WorkflowExecution (params_WorkflowInfo (la_params task))));
       LStr tagRunID;
       LStr (RunID (WorkflowInfo_WorkflowExecution (params_WorkflowInfo (la_params task))))] in
  WithValue ctx activityEnvContextKey (EnvPtr {|
    workflowType := Some workflowTypeLocal;
    workflowNamespace := WorkflowInfo_Namespace (params_WorkflowInfo (la_params task));
    taskQueue := WorkflowInfo_TaskQueueName (params_WorkflowInfo (la_params task));
    activityType := {| ActivityType_Name := activityType |};
    activityID := Sprintf_v (la_activityID task);
    workflowExecution := WorkflowInfo_WorkflowExecution (params_WorkflowInfo (la_params task));
    logger := logger;
    metricsScope := scope;
    isLocalActivity := true;
    dataConverter := dataConverter;
    attempt := la_attempt task;
    (* not set by the struct literal: the zero values *)
    taskToken := None;
    serviceInvoker := None;
    heartbeatTimeout := 0;
    deadline := zeroTime;
    scheduledTime := zeroTime;
    startedTime := zeroTime;
    heartbeatDetails := None;
    workerStopChannel := None;
    contextPropagators := [];
    tracer := None
  |}).

End Activity.

(** ** Measures on traces *)

Section Traces.
Context {H : Handles}.

Definition isHeartbeat (e : Event) : bool :=
  match e with
  | EvHeartbeat _ _ _ _ => true
  | _ => false
  end.

(** The number of calls of [ServiceInvoker.Heartbeat] in a trace. *)
Definition heartbeatCalls (tr : list Event) : nat :=
  List.length (filter isHeartbeat tr).

End Traces.

(** ** A concrete instance

    A small implementation of the collaborators, on which the definitions
    above run: payloads are lists of numbers, the codec refuses the value
    [0], the service invoker [true] fails every heartbeat and the invoker
    state counts the heartbeats received. *)

Definition sampleHandles : Handles := {|
  ServiceInvoker := bool;
  Logger := list string;
  Scope := unit;
  DataConverter := unit;
  Tracer := unit;
  ContextPropagator := unit;
  StopChannel := unit;
  Payloads := list (option nat);
  GoError := string;
  Value := nat;
  EncodedValues := option (list (option nat));
  LocalActivityID := string;
  InvokerState := nat;
  Memory := list (option nat)
|}.

Definition sampleFieldName (f : @LogField sampleHandles) : list string :=
  match f with
  | LStr s => [s]
  | _ => []
  end.

Definition sampleEncode (args : list (option nat)) : option (list (option nat)) * option string :=
  if existsb (fun a => match a with Some O => true | _ => false end) args
  then (None, Some "unable to encode")
  else (Some args, None).

Definition sampleGet (ev : option (list (option nat))) (d : list (option nat))
    (m : list (option nat)) : option string * list (option nat) :=
  match ev with
  | None => (Some "no data available", m)
  | Some p =>
      if (List.length p =? List.length d)%nat then (None, p)
      else (Some "unable to decode", m)
  end.

Definition sampleCollaborators : @Collaborators sampleHandles := {|
  TimeValue := fun t => match t with Some x => x | None => zeroTime end;
  DurationValue := fun d => match d with Some x => x | None => 0 end;
  log_With := fun (l : @Logger sampleHandles) kv => (l ++ flat_map sampleFieldName kv)%list;
  tagActivityID := "ActivityID";
  tagActivityType := "ActivityType";
  tagAttempt := "Attempt";
  tagWorkflowType := "WorkflowType";
  tagWorkflowID := "WorkflowID";
  tagRunID := "RunID";
  tagError := "Error";
  Sprintf_v := fun (s : @LocalActivityID sampleHandles) => s;
  ErrNoData := "no data available" : @GoError sampleHandles;
  encodeArgs := fun _ => sampleEncode;
  getDataConverterFromActivityCtx := fun _ => tt;
  newEncodedValues := fun p _ => p;
  EncodedValues_Get := sampleGet;
  ServiceInvoker_Heartbeat :=
    fun (inv : @ServiceInvoker sampleHandles) _ _ _ (s : @InvokerState sampleHandles) =>
      (if inv then Some "activity canceled" else None, S s)
|}.

Definition second : Duration := 1000000000.

(** The task of the scenario: scheduled at [T0], started two seconds later,
    thirty seconds from schedule to close, ten from start to close. *)
Definition sampleT0 : Time := 1000 * second.

Definition sampleTask : @PollActivityTaskQueueResponse sampleHandles := {|
  task_TaskToken := Some [Byte.x01; Byte.x02];
  task_WorkflowNamespace := "default";
  task_WorkflowType := Some {| pbWorkflowType_Name := "Order" |};
  task_WorkflowExecution := Some {| WorkflowId := "wf-1"; RunId := "run-1" |};
  task_ActivityType := Some {| pbActivityType_Name := "Charge" |};
  task_ActivityId := "5";
  task_HeartbeatDetails := None;
  task_ScheduledTime := Some sampleT0;
  task_StartedTime := Some (sampleT0 + 2 * second);
  task_Attempt := 1;
  task_ScheduleToCloseTimeout := Some (30 * second);
  task_StartToCloseTimeout := Some (10 * second);
  task_HeartbeatTimeout := Some (3 * second)
|}.

(** The same task picked up five seconds after it was scheduled with only
    one second from schedule to close. *)
Definition lateTask : @PollActivityTaskQueueResponse sampleHandles := {|
  task_TaskToken := Some [Byte.x01; Byte.x02];
  task_WorkflowNamespace := "default";
  task_WorkflowType := Some {| pbWorkflowType_Name := "Order" |};
  task_WorkflowExecution := Some {| WorkflowId := "wf-1"; RunId := "run-1" |};
  task_ActivityType := Some {| pbActivityType_Name := "Charge" |};
  task_ActivityId := "5";
  task_HeartbeatDetails := Some ([Some 7%nat] : @Payloads sampleHandles);
  task_ScheduledTime := Some sampleT0;
  task_StartedTime := Some (sampleT0 + 5 * second);
  task_Attempt := 1;
  task_ScheduleToCloseTimeout := Some (1 * second);
  task_StartToCloseTimeout := Some (10 * second);
  task_HeartbeatTimeout := Some (3 * second)
|}.

Definition sampleLocalTask : @localActivityTask sampleHandles := {|
  la_activityID := "7" : @LocalActivityID sampleHandles;
  la_params := {|
    params_ActivityType := "Charge";
    params_WorkflowInfo := {|
      WorkflowInfo_WorkflowExecution := {| ID := "wf-1"; RunID := "run-1" |};
      WorkflowInfo_WorkflowType := {| WorkflowType_Name := "Order" |};
      WorkflowInfo_TaskQueueName := "orders";
      WorkflowInfo_Namespace := "default"
    |}
  |};
  la_attempt := 1
|}.

(** Attaching [task] to the background context with the invoker [inv]. *)
Definition sampleAttach (task : @PollActivityTaskQueueResponse sampleHandles)
    (inv : bool) : @Outcome sampleHandles (@Context sampleHandles) :=
  @WithActivityTask sampleHandles sampleCollaborators
    Background (Some task) "orders" (Some inv) [] tt tt (Some tt) [] (Some tt).

(** The context of [task] attached with the invoker [inv]. *)
Definition sampleRemoteContext (task : @PollActivityTaskQueueResponse sampleHandles)
    (inv : bool) : @Context sampleHandles :=
  match sampleAttach task inv with
  | Returned c => c
  | Panicked _ => Background
  end.

Definition sampleLocalContext : @Context sampleHandles :=
  @WithLocalActivityTask sampleHandles sampleCollaborators None sampleLocalTask [] tt tt.

Definition sampleWorld : @World sampleHandles :=
  {| invokerState := 0%nat : @InvokerState sampleHandles;
     memory := [] : @Memory sampleHandles;
     trace := [] |}.

(** [sampleTask] attached with a nil service invoker. *)
Definition sampleNoInvokerContext : @Context sampleHandles :=
  match @WithActivityTask sampleHandles sampleCollaborators
          Background (Some sampleTask) "orders" None [] tt tt (Some tt) [] (Some tt) with
  | Returned c => c
  | Panicked _ => Background
  end.

(** A task with a negative schedule-to-close timeout. *)
Definition negativeTask : @PollActivityTaskQueueResponse sampleHandles := {|
  task_TaskToken := None;
  task_WorkflowNamespace := "default";
  task_WorkflowType := None;
  task_WorkflowExecution := Some {| WorkflowId := "wf-2"; RunId := "run-2" |};
  task_ActivityType := None;
  task_ActivityId := "9";
  task_HeartbeatDetails := None;
  task_ScheduledTime := Some sampleT0;
  task_StartedTime := Some (sampleT0 + 2 * second);
  task_Attempt := 3;
  task_ScheduleToCloseTimeout := Some (- (1 * second));
  task_StartToCloseTimeout := Some (10 * second);
  task_HeartbeatTimeout := None
|}.

(** * Properties *)

Section Properties.
Context {H : Handles} {C : Collaborators}.

(** ** Shared lemmas *)

Lemma getActivityEnv_attached (ctx : Context) (env : activityEnvironment) :
  getActivityEnv (WithValue ctx activityEnvContextKey (EnvPtr env)) = Returned env.
Proof. reflexivity. Qed.

(** The deadline [WithActivityTask] stores, as a function of the four
    values it reads from the task. *)
Lemma deadline_cases (scheduled started : Time) (s2c st2c : Duration) :
  let d := if s2c >? 0
           then if Time_Before (Time_Add scheduled s2c) (Time_Add started st2c)
                then Time_Add scheduled s2c
                else Time_Add started st2c
           else Time_Add started st2c in
  (0 < s2c -> d = Z.min (Time_Add scheduled s2c) (Time_Add started st2c))
  /\ (s2c <= 0 -> d = Time_Add started st2c).
Proof.
  unfold Time_Before, Time_Add; cbv zeta.
  destruct (Z.gtb_spec s2c 0) as [Hpos | Hnpos].
  - destruct (Z.ltb_spec (scheduled + s2c) (started + st2c)); split; lia.
  - split; intros; [lia | reflexivity].
Qed.

(** A remote attachment of a non-nil task that names its workflow execution
    returns, and the environment it binds has these fields. *)
Lemma WithActivityTask_attaches
    (ctx : Context) (t : PollActivityTaskQueueResponse) (we : pbWorkflowExecution)
    (taskQueue : string) (invoker : option ServiceInvoker) (logger : Logger)
    (scope : Scope) (dc : DataConverter) (stop : option StopChannel)
    (props : list ContextPropagator) (tracer : option Tracer) :
  task_WorkflowExecution t = Some we ->
  exists env,
    WithActivityTask ctx (Some t) taskQueue invoker logger scope dc stop props tracer
      = Returned (WithValue ctx activityEnvContextKey (EnvPtr env))
    /\ isLocalActivity env = false
    /\ serviceInvoker env = invoker
    /\ attempt env = task_Attempt t
    /\ workflowExecution env = {| ID := WorkflowId we; RunID := RunId we |}
    /\ heartbeatDetails env = task_HeartbeatDetails t
    /\ scheduledTime env = TimeValue (task_ScheduledTime t)
    /\ startedTime env = TimeValue (task_StartedTime t)
    /\ deadline env =
         (if DurationValue (task_ScheduleToCloseTimeout t) >? 0
          then if Time_Before
                    (Time_Add (TimeValue (task_ScheduledTime t))
                              (DurationValue (task_ScheduleToCloseTimeout t)))
                    (Time_Add (TimeValue (task_StartedTime t))
                              (DurationValue (task_StartToCloseTimeout t)))
               then Time_Add (TimeValue (task_ScheduledTime t))
                             (DurationValue (task_ScheduleToCloseTimeout t))
               else Time_Add (TimeValue (task_StartedTime t))
                             (DurationValue (task_StartToCloseTimeout t))
          else Time_Add (TimeValue (task_StartedTime t))
                        (DurationValue (task_StartToCloseTimeout t))).
Proof.
  intros Hwe. unfold WithActivityTask. cbn. rewrite Hwe. cbn.
  eexists. split; [reflexivity |]. cbn. repeat split; reflexivity.
Qed.

(** ** The deadline *)

(** C1. For a remote task with scheduleToCloseTimeout > 0 the deadline
    attached by [WithActivityTask] is the minimum of
    scheduled + scheduleToCloseTimeout and started + startToCloseTimeout; with
    scheduleToCloseTimeout = 0 it is started + startToCloseTimeout. *)
Theorem C1_remote_deadline
    (ctx : Context) (t : PollActivityTaskQueueResponse) (we : pbWorkflowExecution)
    (taskQueue : string) (invoker : option ServiceInvoker) (logger : Logger)
    (scope : Scope) (dc : DataConverter) (stop : option StopChannel)
    (props : list ContextPropagator) (tracer : option Tracer) :
  task_WorkflowExecution t = Some we ->
  let scheduled := TimeValue (task_ScheduledTime t) in
  let started := TimeValue (task_StartedTime t) in
  let scheduleToCloseTimeout := DurationValue (task_ScheduleToCloseTimeout t) in
  let startToCloseTimeout := DurationValue (task_StartToCloseTimeout t) in
  exists ctx' env info,
    WithActivityTask ctx (Some t) taskQueue invoker logger scope dc stop props tracer
      = Returned ctx'
    /\ getActivityEnv ctx' = Returned env
    /\ GetActivityInfo ctx' = Returned info
    /\ Deadline info = deadline env
    /\ (scheduleToCloseTimeout > 0 ->
        deadline env = Z.min (Time_Add scheduled scheduleToCloseTimeout)
                             (Time_Add started startToCloseTimeout))
    /\ (scheduleToCloseTimeout = 0 ->
        deadline env = Time_Add started startToCloseTimeout).
Proof.
  intros Hwe scheduled started s2c st2c.
  destruct (WithActivityTask_attaches ctx t we taskQueue invoker logger scope dc
              stop props tracer Hwe)
    as (env & Hret & _ & _ & _ & _ & _ & _ & _ & Hdl).
  destruct (deadline_cases scheduled started s2c st2c) as [Hmin Hzero].
  exists (WithValue ctx activityEnvContextKey (EnvPtr env)), env.
  eexists. split; [exact Hret |]. split; [reflexivity |].
  split; [reflexivity |]. split; [reflexivity |].
  rewrite Hdl. split; intros Hs.
  - apply Hmin. lia.
  - apply Hzero. fold s2c. lia.
Qed.

(** C2 (amended). Read through [GetActivityInfo], the attempt of an attached
    environment is the attempt of the task descriptor, whatever it is.  For a
    remote task, deadline >= startedTime holds exactly when
    startToCloseTimeout >= 0 and, if scheduleToCloseTimeout > 0,
    scheduled + scheduleToCloseTimeout >= started.  For a local task deadline
    and startedTime are both the zero time. *)
Theorem C2_info_invariant_amended :
  (forall (ctx : Context) (t : PollActivityTaskQueueResponse) (we : pbWorkflowExecution)
          (taskQueue : string) (invoker : option ServiceInvoker) (logger : Logger)
          (scope : Scope) (dc : DataConverter) (stop : option StopChannel)
          (props : list ContextPropagator) (tracer : option Tracer),
      task_WorkflowExecution t = Some we ->
      let scheduled := TimeValue (task_ScheduledTime t) in
      let started := TimeValue (task_StartedTime t) in
      let scheduleToCloseTimeout := DurationValue (task_ScheduleToCloseTimeout t) in
      let startToCloseTimeout := DurationValue (task_StartToCloseTimeout t) in
      exists ctx' info,
        WithActivityTask ctx (Some t) taskQueue invoker logger scope dc stop props tracer
          = Returned ctx'
        /\ GetActivityInfo ctx' = Returned info
        /\ Attempt info = task_Attempt t
        /\ StartedTime info = started
        /\ (Deadline info >= StartedTime info <->
            startToCloseTimeout >= 0
            /\ (scheduleToCloseTimeout > 0 ->
                Time_Add scheduled scheduleToCloseTimeout >= started)))
  /\ (forall (ctx : option Context) (task : localActivityTask) (logger : Logger)
             (scope : Scope) (dc : DataConverter),
        exists info,
          GetActivityInfo (WithLocalActivityTask ctx task logger scope dc) = Returned info
          /\ Attempt info = la_attempt task
          /\ Deadline info = zeroTime
          /\ StartedTime info = zeroTime).
Proof.
  split.
  - intros ctx t we taskQueue invoker logger scope dc stop props tracer Hwe
           scheduled started s2c st2c.
    destruct (WithActivityTask_attaches ctx t we taskQueue invoker logger scope dc
                stop props tracer Hwe)
      as (env & Hret & _ & _ & Hatt & _ & _ & _ & Hst & Hdl).
    exists (WithValue ctx activityEnvContextKey (EnvPtr env)).
    eexists. split; [exact Hret |]. split; [reflexivity |]. cbn.
    split; [exact Hatt |]. split; [exact Hst |].
    rewrite Hdl, Hst. fold scheduled started s2c st2c.
    unfold Time_Before, Time_Add.
    destruct (Z.gtb_spec s2c 0);
      [destruct (Z.ltb_spec (scheduled + s2c) (started + st2c)) |]; lia.
  - intros ctx task logger scope dc. eexists. split; [reflexivity |].
    cbn. repeat split.
Qed.

(** C8. Reading the context returned by [WithActivityTask] through
    [GetActivityInfo] gives the attempt of the task descriptor (1 when the
    descriptor says 1) and the workflow id and run id of the task. *)
Theorem C8_attach_then_read
    (ctx : Context) (t : PollActivityTaskQueueResponse) (we : pbWorkflowExecution)
    (taskQueue : string) (invoker : option ServiceInvoker) (logger : Logger)
    (scope : Scope) (dc : DataConverter) (stop : option StopChannel)
    (props : list ContextPropagator) (tracer : option Tracer) :
  task_WorkflowExecution t = Some we ->
  exists ctx' info,
    WithActivityTask ctx (Some t) taskQueue invoker logger scope dc stop props tracer
      = Returned ctx'
    /\ GetActivityInfo ctx' = Returned info
    /\ Attempt info = task_Attempt t
    /\ (task_Attempt t = 1 -> Attempt info = 1)
    /\ ID (WorkflowExecution_ info) = WorkflowId we
    /\ RunID (WorkflowExecution_ info) = RunId we
    /\ WorkflowExecution_ info = {| ID := WorkflowId we; RunID := RunId we |}.
Proof.
  intros Hwe.
  destruct (WithActivityTask_attaches ctx t we taskQueue invoker logger scope dc
              stop props tracer Hwe)
    as (env & Hret & _ & _ & Hatt & Hwx & _).
  exists (WithValue ctx activityEnvContextKey (EnvPtr env)).
  eexists. split; [exact Hret |]. split; [reflexivity |]. cbn.
  rewrite Hwx, Hatt. cbn. repeat split; auto.
Qed.

(** ** Heartbeats *)

Lemma hasDetails_false_iff (details : list iface) :
  hasDetails details = false <-> details = [] \/ details = [None].
Proof.
  unfold hasDetails.
  destruct details as [| [v |] [| d2 rest]]; cbn; split; intros Hd;
    try reflexivity; try discriminate; auto;
    destruct Hd as [Hd | Hd]; discriminate.
Qed.

Lemma hasDetails_true_iff (details : list iface) :
  hasDetails details = true <-> details <> [] /\ details <> [None].
Proof.
  destruct (hasDetails details) eqn:Hd; split; intros Hx; try reflexivity.
  - split; intros ->; discriminate.
  - discriminate.
  - apply hasDetails_false_iff in Hd. destruct Hx as [H1 H2].
    destruct Hd; contradiction.
Qed.

(** One heartbeat on a remote context whose details, if any, encode. *)
Lemma RecordActivityHeartbeat_remote
    (ctx : Context) (env : activityEnvironment) (inv : ServiceInvoker)
    (details : list iface) (w : World)
    (data : option Payloads) (err : error) (s : InvokerState) :
  getActivityEnv ctx = Returned env ->
  isLocalActivity env = false ->
  serviceInvoker env = Some inv ->
  (if hasDetails details
   then encodeArgs (getDataConverterFromActivityCtx ctx) details = (data, None)
   else data = None) ->
  ServiceInvoker_Heartbeat inv ctx data false (invokerState w) = (err, s) ->
  RecordActivityHeartbeat ctx details w =
    (Returned tt,
     {| invokerState := s;
        memory := memory w;
        trace :=
          trace w
          ++ (if hasDetails details
              then [EvEncodeArgs (getDataConverterFromActivityCtx ctx) details]
              else [])
          ++ EvHeartbeat inv ctx data false
             :: match err with
                | Some e => [EvDebug (logger env) "RecordActivityHeartbeat with error"
                                     [LStr tagError; LErr e]]
                | None => []
                end |}).
Proof.
  intros Henv Hremote Hinv Henc Hhb.
  unfold RecordActivityHeartbeat, bind, lift. rewrite Henv, Hremote.
  destruct (hasDetails details).
  - cbn. rewrite Henc. unfold ret, Heartbeat, bind, lift. rewrite Hinv. cbn.
    rewrite Hhb. destruct err as [e |]; cbn.
    + unfold GetActivityLogger. rewrite Henv. unfold Debug, emit. cbn.
      rewrite <- !app_assoc. reflexivity.
    + rewrite <- !app_assoc. reflexivity.
  - subst data. unfold ret, Heartbeat, bind, lift. rewrite Hinv. cbn.
    rewrite Hhb. destruct err as [e |]; cbn.
    + unfold GetActivityLogger. rewrite Henv. unfold Debug, emit. cbn.
      rewrite <- !app_assoc. reflexivity.
    + reflexivity.
Qed.

(** C3. On a remote context, a heartbeat with no details or with the single
    detail nil does not call the encoder and sends a nil payload through the
    service invoker with skipBatching = false; any other detail list is first
    encoded by the data converter and the payload obtained is sent with
    skipBatching = false. *)
Theorem C3_heartbeat_payload
    (ctx : Context) (env : activityEnvironment) (inv : ServiceInvoker)
    (details : list iface) (w : World) :
  getActivityEnv ctx = Returned env ->
  isLocalActivity env = false ->
  serviceInvoker env = Some inv ->
  let dc := getDataConverterFromActivityCtx ctx in
  let logged (err : error) :=
    match err with
    | Some e => [EvDebug (logger env) "RecordActivityHeartbeat with error"
                         [LStr tagError; LErr e]]
    | None => []
    end in
  (details = [] \/ details = [None] ->
   exists err s,
     ServiceInvoker_Heartbeat inv ctx None false (invokerState w) = (err, s)
     /\ RecordActivityHeartbeat ctx details w =
          (Returned tt,
           {| invokerState := s;
              memory := memory w;
              trace := trace w ++ EvHeartbeat inv ctx None false :: logged err |}))
  /\ (details <> [] -> details <> [None] ->
      forall data, encodeArgs dc details = (data, None) ->
      exists err s,
        ServiceInvoker_Heartbeat inv ctx data false (invokerState w) = (err, s)
        /\ RecordActivityHeartbeat ctx details w =
             (Returned tt,
              {| invokerState := s;
                 memory := memory w;
                 trace := trace w ++ EvEncodeArgs dc details
                                  :: EvHeartbeat inv ctx data false :: logged err |})).
Proof.
  intros Henv Hremote Hinv dc logged. split.
  - intros Hnil. apply hasDetails_false_iff in Hnil.
    destruct (ServiceInvoker_Heartbeat inv ctx None false (invokerState w))
      as [err s] eqn:Hhb.
    exists err, s. split; [reflexivity |].
    rewrite (RecordActivityHeartbeat_remote ctx env inv details w None err s);
      auto; rewrite Hnil; reflexivity.
  - intros Hne Hnn data Henc.
    assert (Hd : hasDetails details = true) by (apply hasDetails_true_iff; auto).
    destruct (ServiceInvoker_Heartbeat inv ctx data false (invokerState w))
      as [err s] eqn:Hhb.
    exists err, s. split; [reflexivity |].
    rewrite (RecordActivityHeartbeat_remote ctx env inv details w data err s);
      auto; rewrite Hd; auto.
Qed.

(** C4. On a remote context, when the service invoker's Heartbeat returns an
    error, RecordActivityHeartbeat writes that error to the debug log and
    returns normally: the error does not reach the caller and there is no
    panic. *)
Theorem C4_invoker_error_swallowed
    (ctx : Context) (env : activityEnvironment) (inv : ServiceInvoker)
    (details : list iface) (w : World)
    (data : option Payloads) (e : GoError) (s : InvokerState) :
  getActivityEnv ctx = Returned env ->
  isLocalActivity env = false ->
  serviceInvoker env = Some inv ->
  (if hasDetails details
   then encodeArgs (getDataConverterFromActivityCtx ctx) details = (data, None)
   else data = None) ->
  ServiceInvoker_Heartbeat inv ctx data false (invokerState w) = (Some e, s) ->
  exists (w' : World) (before : list Event),
    RecordActivityHeartbeat ctx details w = (Returned tt, w')
    /\ invokerState w' = s
    /\ trace w' =
         trace w ++ before
         ++ [EvHeartbeat inv ctx data false;
             EvDebug (logger env) "RecordActivityHeartbeat with error"
                     [LStr tagError; LErr e]]
    /\ GetActivityLogger ctx = Returned (logger env)
    /\ forall ev, In ev before -> exists dc args, ev = EvEncodeArgs dc args.
Proof.
  intros Henv Hremote Hinv Henc Hhb.
  rewrite (RecordActivityHeartbeat_remote ctx env inv details w data (Some e) s);
    auto.
  eexists.
  exists (if hasDetails details
          then [EvEncodeArgs (getDataConverterFromActivityCtx ctx) details]
          else []).
  split; [reflexivity |]. cbn. split; [reflexivity |]. split; [reflexivity |].
  split; [unfold GetActivityLogger; rewrite Henv; reflexivity |].
  intros ev Hin. destruct (hasDetails details); cbn in Hin.
  - destruct Hin as [<- | []]. eauto.
  - contradiction.
Qed.

(** C5. On a remote context, when encoding the details fails (the detail
    list being neither empty nor the single nil), RecordActivityHeartbeat
    panics with the encoding error and no heartbeat reaches the service
    invoker. *)
Theorem C5_encoding_failure_is_fatal
    (ctx : Context) (env : activityEnvironment)
    (details : list iface) (w : World)
    (data : option Payloads) (e : GoError) :
  getActivityEnv ctx = Returned env ->
  isLocalActivity env = false ->
  details <> [] ->
  details <> [None] ->
  encodeArgs (getDataConverterFromActivityCtx ctx) details = (data, Some e) ->
  exists w',
    RecordActivityHeartbeat ctx details w = (Panicked (PanicError e), w')
    /\ invokerState w' = invokerState w
    /\ trace w' = trace w ++ [EvEncodeArgs (getDataConverterFromActivityCtx ctx) details]
    /\ forall i c p b, ~ In (EvHeartbeat i c p b) [EvEncodeArgs (getDataConverterFromActivityCtx ctx) details].
Proof.
  intros Henv Hremote Hne Hnn Henc.
  assert (Hd : hasDetails details = true) by (apply hasDetails_true_iff; auto).
  unfold RecordActivityHeartbeat, bind, lift. rewrite Henv, Hremote, Hd.
  cbn. rewrite Henc. cbn. eexists. split; [reflexivity |]. cbn.
  repeat split. intros i c p b [Hev | []]. discriminate.
Qed.

(** C6. On a context whose environment is a local activity,
    RecordActivityHeartbeat returns at once: for every detail list and every
    state of the world the world is unchanged (no call of a service invoker,
    nothing logged) and nothing is raised. *)
Theorem C6_local_heartbeat_noop
    (ctx : Context) (env : activityEnvironment) (details : list iface) (w : World) :
  getActivityEnv ctx = Returned env ->
  isLocalActivity env = true ->
  RecordActivityHeartbeat ctx details w = (Returned tt, w).
Proof.
  intros Henv Hlocal.
  unfold RecordActivityHeartbeat, bind, lift. rewrite Henv, Hlocal. reflexivity.
Qed.

(** ** Heartbeat details of the previous attempt *)

(** C7. With no payload of a previous attempt in the environment,
    HasHeartbeatDetails is false and GetHeartbeatDetails fails with
    ErrNoData, touching nothing; both constructors, given no payload, build
    such an environment.  With a payload, GetHeartbeatDetails decodes it
    into the outputs with the environment's data converter and returns
    whatever the decoder returns, its error included. *)
Theorem C7_heartbeat_details :
  (forall (ctx : Context) (env : activityEnvironment) (d : list iface) (w : World),
      getActivityEnv ctx = Returned env ->
      heartbeatDetails env = None ->
      HasHeartbeatDetails ctx = Returned false
      /\ GetHeartbeatDetails ctx d w = (Returned (Some ErrNoData), w))
  /\ (forall (ctx : Context) (env : activityEnvironment) (p : Payloads)
             (d : list iface) (w : World) (err : error) (m : Memory),
        getActivityEnv ctx = Returned env ->
        heartbeatDetails env = Some p ->
        EncodedValues_Get (newEncodedValues (Some p) (dataConverter env)) d (memory w)
          = (err, m) ->
        HasHeartbeatDetails ctx = Returned true
        /\ GetHeartbeatDetails ctx d w =
             (Returned err,
              {| invokerState := invokerState w; memory := m; trace := trace w |}))
  /\ (forall (ctx : Context) (t : PollActivityTaskQueueResponse)
             (we : pbWorkflowExecution) (taskQueue : string)
             (invoker : option ServiceInvoker) (logger : Logger) (scope : Scope)
             (dc : DataConverter) (stop : option StopChannel)
             (props : list ContextPropagator) (tracer : option Tracer)
             (d : list iface) (w : World),
        task_WorkflowExecution t = Some we ->
        task_HeartbeatDetails t = None ->
        exists ctx',
          WithActivityTask ctx (Some t) taskQueue invoker logger scope dc stop props tracer
            = Returned ctx'
          /\ HasHeartbeatDetails ctx' = Returned false
          /\ GetHeartbeatDetails ctx' d w = (Returned (Some ErrNoData), w))
  /\ (forall (ctx : option Context) (task : localActivityTask) (logger : Logger)
             (scope : Scope) (dc : DataConverter) (d : list iface) (w : World),
        HasHeartbeatDetails (WithLocalActivityTask ctx task logger scope dc)
          = Returned false
        /\ GetHeartbeatDetails (WithLocalActivityTask ctx task logger scope dc) d w
           = (Returned (Some ErrNoData), w)).
Proof.
  assert (Habsent :
    forall (ctx : Context) (env : activityEnvironment) (d : list iface) (w : World),
      getActivityEnv ctx = Returned env ->
      heartbeatDetails env = None ->
      HasHeartbeatDetails ctx = Returned false
      /\ GetHeartbeatDetails ctx d w = (Returned (Some ErrNoData), w)).
  { intros ctx env d w Henv Hhb.
    unfold HasHeartbeatDetails, GetHeartbeatDetails, bind, lift.
    rewrite Henv. cbn. rewrite Hhb. split; reflexivity. }
  split; [exact Habsent |]. split; [| split].
  - intros ctx env p d w err m Henv Hhb Hget.
    unfold HasHeartbeatDetails, GetHeartbeatDetails, bind, lift.
    rewrite Henv. cbn. rewrite Hhb, Hget. split; reflexivity.
  - intros ctx t we taskQueue invoker logger scope dc stop props tracer d w Hwe Hnil.
    destruct (WithActivityTask_attaches ctx t we taskQueue invoker logger scope dc
                stop props tracer Hwe)
      as (env & Hret & _ & _ & _ & _ & Hhb & _).
    exists (WithValue ctx activityEnvContextKey (EnvPtr env)).
    split; [exact Hret |].
    apply (Habsent _ env); [reflexivity | congruence].
  - intros ctx task logger scope dc d w.
    eapply Habsent; reflexivity.
Qed.

(** ** The local flavor *)

(** C9. The context produced by [WithLocalActivityTask] binds an environment
    with isLocalActivity = true, no task token and no service invoker, whose
    workflow type, namespace, task queue and workflow execution are those of
    the owning workflow's info; with a nil base context the binding sits
    directly on the background context. *)
Theorem C9_local_attachment
    (ctx : option Context) (task : localActivityTask) (logger : Logger)
    (scope : Scope) (dc : DataConverter) :
  let wi := params_WorkflowInfo (la_params task) in
  exists env,
    WithLocalActivityTask ctx task logger scope dc
      = WithValue (match ctx with Some c => c | None => Background end)
                  activityEnvContextKey (EnvPtr env)
    /\ (ctx = None ->
        WithLocalActivityTask ctx task logger scope dc
          = WithValue Background activityEnvContextKey (EnvPtr env))
    /\ getActivityEnv (WithLocalActivityTask ctx task logger scope dc) = Returned env
    /\ isLocalActivity env = true
    /\ taskToken env = None
    /\ serviceInvoker env = None
    /\ workflowType env = Some (WorkflowInfo_WorkflowType wi)
    /\ workflowNamespace env = WorkflowInfo_Namespace wi
    /\ taskQueue env = WorkflowInfo_TaskQueueName wi
    /\ workflowExecution env = WorkflowInfo_WorkflowExecution wi.
Proof.
  intros wi. eexists. split; [reflexivity |].
  split; [intros ->; reflexivity |].
  cbn. repeat split.
Qed.

(** C10. For a context produced by [WithLocalActivityTask], [GetActivityInfo]
    returns the zero value in every field the local constructor does not
    set: a nil TaskToken and zero Deadline, ScheduledTime, StartedTime and
    HeartbeatTimeout. *)
Theorem C10_local_info_zero_fields
    (ctx : option Context) (task : localActivityTask) (logger : Logger)
    (scope : Scope) (dc : DataConverter) :
  exists info,
    GetActivityInfo (WithLocalActivityTask ctx task logger scope dc) = Returned info
    /\ TaskToken info = None
    /\ Deadline info = zeroTime
    /\ ScheduledTime info = zeroTime
    /\ StartedTime info = zeroTime
    /\ HeartbeatTimeout info = 0.
Proof.
  eexists. split; [reflexivity |]. cbn. repeat split.
Qed.

(** * Further properties of the constructors and accessors *)

(** Every field of the environment a remote attachment binds that is copied
    from the task or from an argument. *)
Lemma WithActivityTask_fields
    (ctx : Context) (t : PollActivityTaskQueueResponse) (we : pbWorkflowExecution)
    (taskQueue_ : string) (invoker : option ServiceInvoker) (logger_ : Logger)
    (scope : Scope) (dc : DataConverter) (stop : option StopChannel)
    (props : list ContextPropagator) (tracer_ : option Tracer) :
  task_WorkflowExecution t = Some we ->
  exists env,
    WithActivityTask ctx (Some t) taskQueue_ invoker logger_ scope dc stop props tracer_
      = Returned (WithValue ctx activityEnvContextKey (EnvPtr env))
    /\ isLocalActivity env = false
    /\ serviceInvoker env = invoker
    /\ taskToken env = task_TaskToken t
    /\ activityID env = task_ActivityId t
    /\ activityType env
       = {| ActivityType_Name := pbActivityType_GetName (task_ActivityType t) |}
    /\ taskQueue env = taskQueue_
    /\ heartbeatTimeout env = DurationValue (task_HeartbeatTimeout t)
    /\ scheduledTime env = TimeValue (task_ScheduledTime t)
    /\ startedTime env = TimeValue (task_StartedTime t)
    /\ workflowType env
       = Some {| WorkflowType_Name := pbWorkflowType_GetName (task_WorkflowType t) |}
    /\ workflowNamespace env = task_WorkflowNamespace t
    /\ heartbeatDetails env = task_HeartbeatDetails t
    /\ dataConverter env = dc
    /\ metricsScope env = scope
    /\ workerStopChannel env = stop
    /\ contextPropagators env = props
    /\ tracer env = tracer_
    /\ logger env =
         log_With logger_
           [LStr tagActivityID; LStr (task_ActivityId t);
            LStr tagActivityType; LStr (pbActivityType_GetName (task_ActivityType t));
            LStr tagAttempt; LInt (task_Attempt t);
            LStr tagWorkflowType; LStr (pbWorkflowType_GetName (task_WorkflowType t));
            LStr tagWorkflowID; LStr (WorkflowId we);
            LStr tagRunID; LStr (RunId we)].
Proof.
  intros Hwe. unfold WithActivityTask. cbn. rewrite Hwe. cbn.
  eexists. split; [reflexivity |]. cbn. repeat split; reflexivity.
Qed.


(** X2. Read through [GetActivityInfo], a remote attachment gives back the
    task token, activity id, namespace, started and scheduled times and
    heartbeat timeout of the task, the task queue passed as argument, and the
    names of the activity type and workflow type, which are empty when the
    task's type pointers are nil; the WorkflowType pointer of the info is
    never nil. *)
Theorem X2_remote_info_fields
    (ctx : Context) (t : PollActivityTaskQueueResponse) (we : pbWorkflowExecution)
    (taskQueue_ : string) (invoker : option ServiceInvoker) (logger_ : Logger)
    (scope : Scope) (dc : DataConverter) (stop : option StopChannel)
    (props : list ContextPropagator) (tracer_ : option Tracer) :
  task_WorkflowExecution t = Some we ->
  exists ctx' info,
    WithActivityTask ctx (Some t) taskQueue_ invoker logger_ scope dc stop props tracer_
      = Returned ctx'
    /\ GetActivityInfo ctx' = Returned info
    /\ TaskToken info = task_TaskToken t
    /\ ActivityID info = task_ActivityId t
    /\ TaskQueue info = taskQueue_
    /\ WorkflowNamespace info = task_WorkflowNamespace t
    /\ HeartbeatTimeout info = DurationValue (task_HeartbeatTimeout t)
    /\ ScheduledTime info = TimeValue (task_ScheduledTime t)
    /\ StartedTime info = TimeValue (task_StartedTime t)
    /\ ActivityType_Name (ActivityType_ info)
       = match task_ActivityType t with
         | Some a => pbActivityType_Name a
         | None => ""
         end
    /\ exists wt,
         WorkflowType_ info = Some wt
         /\ WorkflowType_Name wt
            = match task_WorkflowType t with
              | Some x => pbWorkflowType_Name x
              | None => ""
              end.
Proof.
  intros Hwe.
  destruct (WithActivityTask_fields ctx t we taskQueue_ invoker logger_ scope dc
              stop props tracer_ Hwe)
    as (env & Hret & _ & _ & Htok & Hid & Hty & Htq & Hhb & Hsc & Hst & Hwt & Hns & _).
  exists (WithValue ctx activityEnvContextKey (EnvPtr env)).
  eexists. split; [exact Hret |]. split; [reflexivity |]. cbn.
  rewrite Hty, Hwt. cbn.
  repeat (split; [assumption || reflexivity |]).
  eexists. split; [reflexivity |]. destruct (task_WorkflowType t); reflexivity.
Qed.

(** X3. The deadline of a remote attachment is never later than
    started + startToCloseTimeout; when scheduleToCloseTimeout > 0 it is
    never later than scheduled + scheduleToCloseTimeout either, and it is
    always one of the two. *)
Theorem X3_remote_deadline_bounds
    (ctx : Context) (t : PollActivityTaskQueueResponse) (we : pbWorkflowExecution)
    (taskQueue_ : string) (invoker : option ServiceInvoker) (logger_ : Logger)
    (scope : Scope) (dc : DataConverter) (stop : option StopChannel)
    (props : list ContextPropagator) (tracer_ : option Tracer) :
  task_WorkflowExecution t = Some we ->
  let scheduleToCloseDeadline :=
    Time_Add (TimeValue (task_ScheduledTime t))
             (DurationValue (task_ScheduleToCloseTimeout t)) in
  let startToCloseDeadline :=
    Time_Add (TimeValue (task_StartedTime t))
             (DurationValue (task_StartToCloseTimeout t)) in
  exists ctx' info,
    WithActivityTask ctx (Some t) taskQueue_ invoker logger_ scope dc stop props tracer_
      = Returned ctx'
    /\ GetActivityInfo ctx' = Returned info
    /\ Deadline info <= startToCloseDeadline
    /\ (DurationValue (task_ScheduleToCloseTimeout t) > 0 ->
        Deadline info <= scheduleToCloseDeadline)
    /\ (Deadline info = startToCloseDeadline
        \/ Deadline info = scheduleToCloseDeadline).
Proof.
  intros Hwe s2cd st2cd.
  destruct (WithActivityTask_attaches ctx t we taskQueue_ invoker logger_ scope dc
              stop props tracer_ Hwe)
    as (env & Hret & _ & _ & _ & _ & _ & _ & _ & Hdl).
  exists (WithValue ctx activityEnvContextKey (EnvPtr env)).
  eexists. split; [exact Hret |]. split; [reflexivity |]. cbn.
  rewrite Hdl. fold s2cd st2cd. unfold Time_Before.
  destruct (Z.gtb_spec (DurationValue (task_ScheduleToCloseTimeout t)) 0);
    [destruct (Z.ltb_spec s2cd st2cd) |]; repeat split; auto; lia.
Qed.

(** X4. A negative scheduleToCloseTimeout is ignored like a zero one: the
    deadline is started + startToCloseTimeout. *)
Theorem X4_negative_schedule_to_close_ignored
    (ctx : Context) (t : PollActivityTaskQueueResponse) (we : pbWorkflowExecution)
    (taskQueue_ : string) (invoker : option ServiceInvoker) (logger_ : Logger)
    (scope : Scope) (dc : DataConverter) (stop : option StopChannel)
    (props : list ContextPropagator) (tracer_ : option Tracer) :
  task_WorkflowExecution t = Some we ->
  DurationValue (task_ScheduleToCloseTimeout t) < 0 ->
  exists ctx' info,
    WithActivityTask ctx (Some t) taskQueue_ invoker logger_ scope dc stop props tracer_
      = Returned ctx'
    /\ GetActivityInfo ctx' = Returned info
    /\ Deadline info
       = Time_Add (TimeValue (task_StartedTime t))
                  (DurationValue (task_StartToCloseTimeout t)).
Proof.
  intros Hwe Hneg.
  destruct (WithActivityTask_attaches ctx t we taskQueue_ invoker logger_ scope dc
              stop props tracer_ Hwe)
    as (env & Hret & _ & _ & _ & _ & _ & _ & _ & Hdl).
  exists (WithValue ctx activityEnvContextKey (EnvPtr env)).
  eexists. split; [exact Hret |]. split; [reflexivity |]. cbn.
  rewrite Hdl.
  destruct (Z.gtb_spec (DurationValue (task_ScheduleToCloseTimeout t)) 0);
    [lia | reflexivity].
Qed.


(** X6. On a remote attachment [GetActivityMetricsScope] and
    [GetWorkerStopChannel] give back the scope and the stop channel passed
    to [WithActivityTask]. *)
Theorem X6_remote_scope_and_stop_channel
    (ctx : Context) (t : PollActivityTaskQueueResponse) (we : pbWorkflowExecution)
    (taskQueue_ : string) (invoker : option ServiceInvoker) (logger_ : Logger)
    (scope : Scope) (dc : DataConverter) (stop : option StopChannel)
    (props : list ContextPropagator) (tracer_ : option Tracer) :
  task_WorkflowExecution t = Some we ->
  exists ctx',
    WithActivityTask ctx (Some t) taskQueue_ invoker logger_ scope dc stop props tracer_
      = Returned ctx'
    /\ GetActivityMetricsScope ctx' = Returned scope
    /\ GetWorkerStopChannel ctx' = Returned stop.
Proof.
  intros Hwe.
  destruct (WithActivityTask_fields ctx t we taskQueue_ invoker logger_ scope dc
              stop props tracer_ Hwe)
    as (env & Hret & _ & _ & _ & _ & _ & _ & _ & _ & _ & _ & _ & _ & _ & Hsc & Hstop & _).
  exists (WithValue ctx activityEnvContextKey (EnvPtr env)).
  split; [exact Hret |].
  unfold GetActivityMetricsScope, GetWorkerStopChannel. cbn.
  rewrite Hsc, Hstop. split; reflexivity.
Qed.

(** X7. On a local attachment [GetActivityMetricsScope] gives back the scope
    passed to [WithLocalActivityTask] and [GetWorkerStopChannel] returns the
    nil channel, whatever the base context holds. *)
Theorem X7_local_scope_and_nil_stop_channel
    (ctx : option Context) (task : localActivityTask) (logger_ : Logger)
    (scope : Scope) (dc : DataConverter) :
  GetActivityMetricsScope (WithLocalActivityTask ctx task logger_ scope dc)
    = Returned scope
  /\ GetWorkerStopChannel (WithLocalActivityTask ctx task logger_ scope dc)
     = Returned None.
Proof. split; reflexivity. Qed.

(** X8. Neither attachment hides what the base context binds under other
    keys. *)
Theorem X8_attachment_keeps_other_keys :
  (forall (ctx : Context) (t : PollActivityTaskQueueResponse) (we : pbWorkflowExecution)
          (taskQueue_ : string) (invoker : option ServiceInvoker) (logger_ : Logger)
          (scope : Scope) (dc : DataConverter) (stop : option StopChannel)
          (props : list ContextPropagator) (tracer_ : option Tracer) (name : string),
      task_WorkflowExecution t = Some we ->
      exists ctx',
        WithActivityTask ctx (Some t) taskQueue_ invoker logger_ scope dc stop props tracer_
          = Returned ctx'
        /\ Context_Value ctx' (otherContextKey name)
           = Context_Value ctx (otherContextKey name))
  /\ (forall (ctx : Context) (task : localActivityTask) (logger_ : Logger)
             (scope : Scope) (dc : DataConverter) (name : string),
        Context_Value (WithLocalActivityTask (Some ctx) task logger_ scope dc)
                      (otherContextKey name)
        = Context_Value ctx (otherContextKey name)).
Proof.
  split.
  - intros ctx t we taskQueue_ invoker logger_ scope dc stop props tracer_ name Hwe.
    destruct (WithActivityTask_attaches ctx t we taskQueue_ invoker logger_ scope dc
                stop props tracer_ Hwe) as (env & Hret & _).
    exists (WithValue ctx activityEnvContextKey (EnvPtr env)).
    split; [exact Hret | reflexivity].
  - intros. reflexivity.
Qed.

(** * Further properties of heartbeats *)

Lemma heartbeatCalls_app (tr1 tr2 : list Event) :
  heartbeatCalls (tr1 ++ tr2) = (heartbeatCalls tr1 + heartbeatCalls tr2)%nat.
Proof.
  unfold heartbeatCalls. rewrite filter_app, length_app. reflexivity.
Qed.

(** X9. A heartbeat on the context just returned by [WithActivityTask] goes
    to the invoker passed to [WithActivityTask], with that very context, and
    an invoker error is written to the enriched logger of the attachment. *)
Theorem X9_attach_then_heartbeat
    (ctx : Context) (t : PollActivityTaskQueueResponse) (we : pbWorkflowExecution)
    (taskQueue_ : string) (inv : ServiceInvoker) (logger_ : Logger)
    (scope : Scope) (dc : DataConverter) (stop : option StopChannel)
    (props : list ContextPropagator) (tracer_ : option Tracer)
    (details : list iface) (w : World) :
  task_WorkflowExecution t = Some we ->
  exists ctx',
    WithActivityTask ctx (Some t) taskQueue_ (Some inv) logger_ scope dc stop props tracer_
      = Returned ctx'
    /\ forall (data : option Payloads) (err : error) (s : InvokerState),
         (if hasDetails details
          then encodeArgs (getDataConverterFromActivityCtx ctx') details = (data, None)
          else data = None) ->
         ServiceInvoker_Heartbeat inv ctx' data false (invokerState w) = (err, s) ->
         RecordActivityHeartbeat ctx' details w =
           (Returned tt,
            {| invokerState := s;
               memory := memory w;
               trace :=
                 trace w
                 ++ (if hasDetails details
                     then [EvEncodeArgs (getDataConverterFromActivityCtx ctx') details]
                     else [])
                 ++ EvHeartbeat inv ctx' data false
                    :: match err with
                       | Some e =>
                           [EvDebug
                              (log_With logger_
                                 [LStr tagActivityID; LStr (task_ActivityId t);
                                  LStr tagActivityType;
                                  LStr (pbActivityType_GetName (task_ActivityType t));
                                  LStr tagAttempt; LInt (task_Attempt t);
                                  LStr tagWorkflowType;
                                  LStr (pbWorkflowType_GetName (task_WorkflowType t));
                                  LStr tagWorkflowID; LStr (WorkflowId we);
                                  LStr tagRunID; LStr (RunId we)])
                              "RecordActivityHeartbeat with error"
                              [LStr tagError; LErr e]]
                       | None => []
                       end |}).
Proof.
  intros Hwe.
  destruct (WithActivityTask_fields ctx t we taskQueue_ (Some inv) logger_ scope dc
              stop props tracer_ Hwe)
    as (env & Hret & Hremote & Hinv & _ & _ & _ & _ & _ & _ & _ & _ & _ & _ & _ & _ & _
        & _ & _ & Hlog).
  exists (WithValue ctx activityEnvContextKey (EnvPtr env)).
  split; [exact Hret |].
  intros data err s Henc Hhb. rewrite <- Hlog.
  apply RecordActivityHeartbeat_remote; auto.
Qed.

(** X10. On an environment that is not local and has a nil service invoker,
    a heartbeat whose details encode (or that has none) panics with a nil
    dereference at the Heartbeat call; no invoker is called. *)
Theorem X10_nil_invoker_panics
    (ctx : Context) (env : activityEnvironment) (details : list iface) (w : World)
    (data : option Payloads) :
  getActivityEnv ctx = Returned env ->
  isLocalActivity env = false ->
  serviceInvoker env = None ->
  (if hasDetails details
   then encodeArgs (getDataConverterFromActivityCtx ctx) details = (data, None)
   else data = None) ->
  exists w',
    RecordActivityHeartbeat ctx details w
      = (Panicked (PanicRuntime "invalid memory address or nil pointer dereference"), w')
    /\ invokerState w' = invokerState w
    /\ memory w' = memory w
    /\ heartbeatCalls (trace w') = heartbeatCalls (trace w).
Proof.
  intros Henv Hremote Hinv Henc.
  unfold RecordActivityHeartbeat, bind, lift. rewrite Henv, Hremote.
  destruct (hasDetails details).
  - cbn. rewrite Henc. unfold ret, Heartbeat, bind, lift. rewrite Hinv. cbn.
    eexists. split; [reflexivity |]. cbn [invokerState memory trace].
    repeat split. rewrite heartbeatCalls_app. cbn. lia.
  - unfold ret, Heartbeat, bind, lift. rewrite Hinv. cbn.
    eexists. split; [reflexivity |]. repeat split.
Qed.

(** X11. Whatever the context, the details and the world, a heartbeat only
    appends to the trace, at most three entries of which at most one is a
    call of the invoker; it leaves the caller's memory alone, and the invoker
    state too unless it called the invoker. *)
Theorem X11_heartbeat_frame
    (ctx : Context) (details : list iface) (w : World) :
  exists added : list Event,
    trace (snd (RecordActivityHeartbeat ctx details w)) = trace w ++ added
    /\ (List.length added <= 3)%nat
    /\ (heartbeatCalls added <= 1)%nat
    /\ memory (snd (RecordActivityHeartbeat ctx details w)) = memory w
    /\ (heartbeatCalls added = 0%nat ->
        invokerState (snd (RecordActivityHeartbeat ctx details w)) = invokerState w).
Proof.
  unfold RecordActivityHeartbeat, GetActivityLogger, Heartbeat, Debug, emit,
    bind, lift, ret, panic.
  destruct (getActivityEnv ctx) as [env | p]; cbn;
    [| exists []; rewrite app_nil_r; cbn; repeat split; lia].
  destruct (isLocalActivity env); cbn;
    [exists []; rewrite app_nil_r; cbn; repeat split; lia |].
  destruct (hasDetails details); cbn.
  - destruct (encodeArgs (getDataConverterFromActivityCtx ctx) details)
      as [data [e |]]; cbn;
      [eexists; split; [reflexivity |]; cbn; repeat split; lia |].
    destruct (serviceInvoker env) as [inv |]; cbn;
      [| eexists; split; [reflexivity |]; cbn; repeat split; lia].
    destruct (ServiceInvoker_Heartbeat inv ctx data false (invokerState w))
      as [[e |] s]; cbn; rewrite <- ?app_assoc;
      (eexists; split; [reflexivity |]; cbn; repeat split; try lia; discriminate).
  - destruct (serviceInvoker env) as [inv |]; cbn;
      [| exists []; rewrite app_nil_r; cbn; repeat split; lia].
    destruct (ServiceInvoker_Heartbeat inv ctx None false (invokerState w))
      as [[e |] s]; cbn; rewrite <- ?app_assoc;
      (eexists; split; [reflexivity |]; cbn; repeat split; try lia; discriminate).
Qed.

(** X12. On a remote environment with a service invoker, a heartbeat returns
    normally exactly when there is nothing to encode or the encoder reports
    no error: a failure of the invoker never makes it panic. *)
Theorem X12_heartbeat_returns_iff_encoding_succeeds
    (ctx : Context) (env : activityEnvironment) (inv : ServiceInvoker)
    (details : list iface) (w : World) :
  getActivityEnv ctx = Returned env ->
  isLocalActivity env = false ->
  serviceInvoker env = Some inv ->
  fst (RecordActivityHeartbeat ctx details w) = Returned tt
  <-> (hasDetails details = false
       \/ snd (encodeArgs (getDataConverterFromActivityCtx ctx) details) = None).
Proof.
  intros Henv Hremote Hinv.
  destruct (hasDetails details) eqn:Hd.
  - destruct (encodeArgs (getDataConverterFromActivityCtx ctx) details)
      as [data [e |]] eqn:Henc.
    + unfold RecordActivityHeartbeat, bind, lift. rewrite Henv, Hremote, Hd.
      cbn. rewrite Henc. cbn. split.
      * discriminate.
      * intros [Hf | Hn]; discriminate.
    + destruct (ServiceInvoker_Heartbeat inv ctx data false (invokerState w))
        as [err s] eqn:Hhb.
      rewrite (RecordActivityHeartbeat_remote ctx env inv details w data err s);
        auto; [| rewrite Hd; exact Henc].
      cbn. split; auto.
  - destruct (ServiceInvoker_Heartbeat inv ctx None false (invokerState w))
      as [err s] eqn:Hhb.
    rewrite (RecordActivityHeartbeat_remote ctx env inv details w None err s);
      auto; [| rewrite Hd; reflexivity].
    cbn. split; auto.
Qed.

(** X13. Two heartbeats in a row on a remote environment with a service
    invoker make two calls of the invoker, the second on the state the first
    left, whether or not the first call reported an error: nothing is
    retried, dropped or merged here. *)
Theorem X13_two_heartbeats
    (ctx : Context) (env : activityEnvironment) (inv : ServiceInvoker)
    (details1 details2 : list iface) (w : World)
    (data1 data2 : option Payloads) (err1 err2 : error) (s1 s2 : InvokerState) :
  getActivityEnv ctx = Returned env ->
  isLocalActivity env = false ->
  serviceInvoker env = Some inv ->
  (if hasDetails details1
   then encodeArgs (getDataConverterFromActivityCtx ctx) details1 = (data1, None)
   else data1 = None) ->
  (if hasDetails details2
   then encodeArgs (getDataConverterFromActivityCtx ctx) details2 = (data2, None)
   else data2 = None) ->
  ServiceInvoker_Heartbeat inv ctx data1 false (invokerState w) = (err1, s1) ->
  ServiceInvoker_Heartbeat inv ctx data2 false s1 = (err2, s2) ->
  exists w',
    bind (RecordActivityHeartbeat ctx details1)
         (fun _ => RecordActivityHeartbeat ctx details2) w
      = (Returned tt, w')
    /\ invokerState w' = s2
    /\ memory w' = memory w
    /\ heartbeatCalls (trace w') = (heartbeatCalls (trace w) + 2)%nat
    /\ exists before between after_,
         trace w' = trace w ++ before
                    ++ EvHeartbeat inv ctx data1 false :: between
                    ++ EvHeartbeat inv ctx data2 false :: after_
         /\ heartbeatCalls before = 0%nat
         /\ heartbeatCalls between = 0%nat
         /\ heartbeatCalls after_ = 0%nat.
Proof.
  intros Henv Hremote Hinv Henc1 Henc2 Hhb1 Hhb2.
  unfold bind at 1.
  rewrite (RecordActivityHeartbeat_remote ctx env inv details1 w data1 err1 s1);
    auto.
  rewrite (RecordActivityHeartbeat_remote ctx env inv details2 _ data2 err2 s2);
    auto.
  eexists. split; [reflexivity |]. cbn [invokerState memory trace].
  split; [reflexivity |]. split; [reflexivity |].
  split.
  - rewrite !heartbeatCalls_app.
    destruct (hasDetails details1), (hasDetails details2), err1, err2; cbn; lia.
  - exists (if hasDetails details1
            then [EvEncodeArgs (getDataConverterFromActivityCtx ctx) details1]
            else []).
    exists (match err1 with
            | Some e => [EvDebug (logger env) "RecordActivityHeartbeat with error"
                                 [LStr tagError; LErr e]]
            | None => []
            end
            ++ (if hasDetails details2
                then [EvEncodeArgs (getDataConverterFromActivityCtx ctx) details2]
                else [])).
    exists (match err2 with
            | Some e => [EvDebug (logger env) "RecordActivityHeartbeat with error"
                                 [LStr tagError; LErr e]]
            | None => []
            end).
    split.
    + rewrite <- ?app_assoc. cbn. rewrite <- ?app_assoc. reflexivity.
    + destruct (hasDetails details1), (hasDetails details2), err1, err2;
        cbn; repeat split.
Qed.

(** * Further properties of the heartbeat details *)

(** X14. Whatever the context and the outputs, [GetHeartbeatDetails] calls
    no invoker and logs nothing, and it leaves the caller's memory alone
    unless the environment holds a payload. *)
Theorem X14_heartbeat_details_frame
    (ctx : Context) (d : list iface) (w : World) :
  invokerState (snd (GetHeartbeatDetails ctx d w)) = invokerState w
  /\ trace (snd (GetHeartbeatDetails ctx d w)) = trace w
  /\ (HasHeartbeatDetails ctx <> Returned true ->
      snd (GetHeartbeatDetails ctx d w) = w).
Proof.
  unfold GetHeartbeatDetails, HasHeartbeatDetails, bind, lift, ret.
  destruct (getActivityEnv ctx) as [env | p]; cbn; [| repeat split].
  destruct (heartbeatDetails env) as [p |]; cbn; [| repeat split].
  destruct (EncodedValues_Get _ d (memory w)) as [err m]; cbn.
  repeat split. intros Hno. contradiction Hno. reflexivity.
Qed.

(** X15. On the context just returned by [WithActivityTask],
    [HasHeartbeatDetails] tells whether the task carries heartbeat details,
    and [GetHeartbeatDetails] decodes the task's payload with the data
    converter that was passed to [WithActivityTask]. *)
Theorem X15_attach_then_heartbeat_details
    (ctx : Context) (t : PollActivityTaskQueueResponse) (we : pbWorkflowExecution)
    (taskQueue_ : string) (invoker : option ServiceInvoker) (logger_ : Logger)
    (scope : Scope) (dc : DataConverter) (stop : option StopChannel)
    (props : list ContextPropagator) (tracer_ : option Tracer) :
  task_WorkflowExecution t = Some we ->
  exists ctx',
    WithActivityTask ctx (Some t) taskQueue_ invoker logger_ scope dc stop props tracer_
      = Returned ctx'
    /\ HasHeartbeatDetails ctx'
       = Returned (match task_HeartbeatDetails t with
                   | Some _ => true
                   | None => false
                   end)
    /\ forall (p : Payloads) (d : list iface) (w : World) (err : error) (m : Memory),
         task_HeartbeatDetails t = Some p ->
         EncodedValues_Get (newEncodedValues (Some p) dc) d (memory w) = (err, m) ->
         GetHeartbeatDetails ctx' d w =
           (Returned err,
            {| invokerState := invokerState w; memory := m; trace := trace w |}).
Proof.
  intros Hwe.
  destruct (WithActivityTask_fields ctx t we taskQueue_ invoker logger_ scope dc
              stop props tracer_ Hwe)
    as (env & Hret & _ & _ & _ & _ & _ & _ & _ & _ & _ & _ & _ & Hhb & Hdc & _).
  exists (WithValue ctx activityEnvContextKey (EnvPtr env)).
  split; [exact Hret |].
  unfold HasHeartbeatDetails, GetHeartbeatDetails, bind, lift. cbn.
  rewrite Hhb, Hdc. split; [reflexivity |].
  intros p d w err m Hp Hget. rewrite Hp, Hget. reflexivity.
Qed.


End Properties.

(** * The properties on the concrete instance *)

Lemma C1_remote_deadline_witness :
  task_WorkflowExecution sampleTask = Some {| WorkflowId := "wf-1"; RunId := "run-1" |}
  /\ exists ctx' env info,
       sampleAttach sampleTask false = Returned ctx'
       /\ getActivityEnv ctx' = Returned env
       /\ GetActivityInfo ctx' = Returned info
       /\ Deadline info = deadline env
       /\ (30 * second > 0 ->
           deadline env = Z.min (Time_Add sampleT0 (30 * second))
                                (Time_Add (sampleT0 + 2 * second) (10 * second)))
       /\ (30 * second = 0 ->
           deadline env = Time_Add (sampleT0 + 2 * second) (10 * second)).
Proof.
  split; [reflexivity |].
  exact (@C1_remote_deadline sampleHandles sampleCollaborators
           Background sampleTask {| WorkflowId := "wf-1"; RunId := "run-1" |}
           "orders" (Some false) [] tt tt (Some tt) [] (Some tt) eq_refl).
Defined.

(** C2 as stated fails: for a task started five seconds after it was
    scheduled, with one second from schedule to close, ten seconds from start
    to close and attempt 1, the deadline read back lies four seconds before
    the started time. *)
Lemma C2_info_invariant_counterexample :
  exists ctx' info,
    sampleAttach lateTask false = Returned ctx'
    /\ GetActivityInfo ctx' = Returned info
    /\ StartedTime info = sampleT0 + 5 * second
    /\ Deadline info = sampleT0 + 1 * second
    /\ Attempt info = 1
    /\ ~ (Deadline info >= StartedTime info /\ Attempt info >= 1).
Proof.
  eexists. eexists. split; [reflexivity |]. split; [reflexivity |].
  cbn. repeat split.
  intros [Hge _]. apply Hge. reflexivity.
Defined.

Lemma C2_info_invariant_amended_witness :
  task_WorkflowExecution sampleTask = Some {| WorkflowId := "wf-1"; RunId := "run-1" |}
  /\ exists ctx' info,
       sampleAttach sampleTask false = Returned ctx'
       /\ GetActivityInfo ctx' = Returned info
       /\ Attempt info = 1
       /\ StartedTime info = sampleT0 + 2 * second
       /\ (Deadline info >= StartedTime info <->
           10 * second >= 0
           /\ (30 * second > 0 ->
               Time_Add sampleT0 (30 * second) >= sampleT0 + 2 * second)).
Proof.
  split; [reflexivity |].
  exact (proj1 (@C2_info_invariant_amended sampleHandles sampleCollaborators)
           Background sampleTask {| WorkflowId := "wf-1"; RunId := "run-1" |}
           "orders" (Some false) [] tt tt (Some tt) [] (Some tt) eq_refl).
Defined.

Lemma C3_heartbeat_payload_witness :
  exists env : @activityEnvironment sampleHandles,
    getActivityEnv (sampleRemoteContext sampleTask true) = Returned env
    /\ isLocalActivity env = false
    /\ serviceInvoker env = Some true
    /\ RecordActivityHeartbeat (C := sampleCollaborators)
         (sampleRemoteContext sampleTask true) [None] sampleWorld
       = (Returned tt,
          {| invokerState := 1%nat : @InvokerState sampleHandles;
             memory := [] : @Memory sampleHandles;
             trace := [EvHeartbeat (H := sampleHandles) true (sampleRemoteContext sampleTask true) None false;
                       EvDebug (H := sampleHandles) (logger env) "RecordActivityHeartbeat with error"
                               [LStr (H := sampleHandles) "Error"; LErr (H := sampleHandles) "activity canceled"]] |})
    /\ RecordActivityHeartbeat (C := sampleCollaborators)
         (sampleRemoteContext sampleTask true) [Some 3%nat; None] sampleWorld
       = (Returned tt,
          {| invokerState := 1%nat : @InvokerState sampleHandles;
             memory := [] : @Memory sampleHandles;
             trace := [EvEncodeArgs (H := sampleHandles) tt [Some 3%nat; None];
                       EvHeartbeat (H := sampleHandles) true (sampleRemoteContext sampleTask true)
                                   (Some [Some 3%nat; None]) false;
                       EvDebug (H := sampleHandles) (logger env) "RecordActivityHeartbeat with error"
                               [LStr (H := sampleHandles) "Error"; LErr (H := sampleHandles) "activity canceled"]] |}).
Proof.
  eexists. split; [reflexivity |]. split; [reflexivity |]. split; [reflexivity |].
  split.
  - destruct (@C3_heartbeat_payload sampleHandles sampleCollaborators
                (sampleRemoteContext sampleTask true) _ true [None] sampleWorld
                eq_refl eq_refl eq_refl) as [Hnil _].
    destruct (Hnil (or_intror eq_refl)) as (err & s & Hhb & Hrec).
    injection Hhb as <- <-. exact Hrec.
  - destruct (@C3_heartbeat_payload sampleHandles sampleCollaborators
                (sampleRemoteContext sampleTask true) _ true [Some 3%nat; None]
                sampleWorld eq_refl eq_refl eq_refl) as [_ Henc].
    destruct (Henc ltac:(discriminate) ltac:(discriminate)
                   (Some [Some 3%nat; None]) eq_refl) as (err & s & Hhb & Hrec).
    injection Hhb as <- <-. exact Hrec.
Defined.

Lemma C4_invoker_error_swallowed_witness :
  exists env : @activityEnvironment sampleHandles,
    getActivityEnv (sampleRemoteContext sampleTask true) = Returned env
    /\ isLocalActivity env = false
    /\ serviceInvoker env = Some true
    /\ @encodeArgs sampleHandles sampleCollaborators tt [Some 3%nat] = (Some [Some 3%nat], None)
    /\ @ServiceInvoker_Heartbeat sampleHandles sampleCollaborators
         true (sampleRemoteContext sampleTask true) (Some [Some 3%nat]) false 0%nat
       = (Some "activity canceled", 1%nat)
    /\ exists (w' : @World sampleHandles) (before : list (@Event sampleHandles)),
         RecordActivityHeartbeat (C := sampleCollaborators)
           (sampleRemoteContext sampleTask true) [Some 3%nat] sampleWorld
         = (Returned tt, w')
         /\ invokerState w' = 1%nat
         /\ trace w' =
              trace sampleWorld ++ before
              ++ [EvHeartbeat (H := sampleHandles) true (sampleRemoteContext sampleTask true)
                              (Some [Some 3%nat]) false;
                  EvDebug (H := sampleHandles) (logger env) "RecordActivityHeartbeat with error"
                          [LStr (H := sampleHandles) "Error"; LErr (H := sampleHandles) "activity canceled"]]
         /\ GetActivityLogger (sampleRemoteContext sampleTask true)
            = Returned (logger env)
         /\ forall ev, In ev before -> exists dc args, ev = EvEncodeArgs dc args.
Proof.
  eexists. split; [reflexivity |]. split; [reflexivity |]. split; [reflexivity |].
  split; [reflexivity |]. split; [reflexivity |].
  exact (@C4_invoker_error_swallowed sampleHandles sampleCollaborators
           (sampleRemoteContext sampleTask true) _ true [Some 3%nat] sampleWorld
           (Some [Some 3%nat]) "activity canceled" 1%nat
           eq_refl eq_refl eq_refl eq_refl eq_refl).
Defined.

Lemma C5_encoding_failure_is_fatal_witness :
  exists env : @activityEnvironment sampleHandles,
    getActivityEnv (sampleRemoteContext sampleTask false) = Returned env
    /\ isLocalActivity env = false
    /\ [Some 0%nat] <> ([] : list (@iface sampleHandles))
    /\ [Some 0%nat] <> ([None] : list (@iface sampleHandles))
    /\ @encodeArgs sampleHandles sampleCollaborators tt [Some 0%nat]
       = (None, Some "unable to encode")
    /\ exists w' : @World sampleHandles,
         RecordActivityHeartbeat (C := sampleCollaborators)
           (sampleRemoteContext sampleTask false) [Some 0%nat] sampleWorld
         = (Panicked (PanicError (H := sampleHandles) "unable to encode"), w')
         /\ invokerState w' = invokerState sampleWorld
         /\ trace w' = trace sampleWorld ++ [EvEncodeArgs (H := sampleHandles) tt [Some 0%nat]]
         /\ forall i c p b,
              ~ In (EvHeartbeat i c p b)
                   [EvEncodeArgs (H := sampleHandles) tt [Some 0%nat]].
Proof.
  eexists. split; [reflexivity |]. split; [reflexivity |].
  split; [discriminate |]. split; [discriminate |]. split; [reflexivity |].
  exact (@C5_encoding_failure_is_fatal sampleHandles sampleCollaborators
           (sampleRemoteContext sampleTask false) _ [Some 0%nat] sampleWorld
           None "unable to encode" eq_refl eq_refl
           ltac:(discriminate) ltac:(discriminate) eq_refl).
Defined.

Lemma C6_local_heartbeat_noop_witness :
  exists env : @activityEnvironment sampleHandles,
    getActivityEnv sampleLocalContext = Returned env
    /\ isLocalActivity env = true
    /\ RecordActivityHeartbeat (C := sampleCollaborators)
         sampleLocalContext [Some 0%nat; None] sampleWorld
       = (Returned tt, sampleWorld).
Proof.
  eexists. split; [reflexivity |]. split; [reflexivity |].
  exact (@C6_local_heartbeat_noop sampleHandles sampleCollaborators
           sampleLocalContext _ [Some 0%nat; None] sampleWorld eq_refl eq_refl).
Defined.

Lemma C7_heartbeat_details_witness :
  (exists env : @activityEnvironment sampleHandles,
     getActivityEnv (sampleRemoteContext sampleTask false) = Returned env
     /\ heartbeatDetails env = None
     /\ HasHeartbeatDetails (sampleRemoteContext sampleTask false) = Returned false
     /\ GetHeartbeatDetails (C := sampleCollaborators)
          (sampleRemoteContext sampleTask false) [None] sampleWorld
        = (Returned (Some "no data available"), sampleWorld))
  /\ (exists env : @activityEnvironment sampleHandles,
        getActivityEnv (sampleRemoteContext lateTask false) = Returned env
        /\ heartbeatDetails env = Some [Some 7%nat]
        /\ HasHeartbeatDetails (sampleRemoteContext lateTask false) = Returned true
        /\ GetHeartbeatDetails (C := sampleCollaborators)
             (sampleRemoteContext lateTask false) [None] sampleWorld
           = (Returned None,
              {| invokerState := 0%nat : @InvokerState sampleHandles;
                 memory := [Some 7%nat] : @Memory sampleHandles;
                 trace := [] |})
        /\ GetHeartbeatDetails (C := sampleCollaborators)
             (sampleRemoteContext lateTask false) [None; None] sampleWorld
           = (Returned (Some "unable to decode"), sampleWorld)).
Proof.
  split.
  - eexists. split; [reflexivity |]. split; [reflexivity |].
    exact (proj1 (@C7_heartbeat_details sampleHandles sampleCollaborators)
             (sampleRemoteContext sampleTask false) _ [None] sampleWorld
             eq_refl eq_refl).
  - eexists. split; [reflexivity |]. split; [reflexivity |].
    pose proof (proj1 (proj2 (@C7_heartbeat_details sampleHandles sampleCollaborators)))
      as Hpresent.
    destruct (Hpresent (sampleRemoteContext lateTask false) _ [Some 7%nat] [None]
                sampleWorld None [Some 7%nat] eq_refl eq_refl eq_refl)
      as [Hhas Hget].
    split; [exact Hhas |]. split; [exact Hget |].
    exact (proj2 (Hpresent (sampleRemoteContext lateTask false) _ [Some 7%nat]
                    [None; None] sampleWorld (Some "unable to decode") []
                    eq_refl eq_refl eq_refl)).
Defined.

Lemma C8_attach_then_read_witness :
  task_WorkflowExecution sampleTask = Some {| WorkflowId := "wf-1"; RunId := "run-1" |}
  /\ exists ctx' info,
       sampleAttach sampleTask false = Returned ctx'
       /\ GetActivityInfo ctx' = Returned info
       /\ Attempt info = 1
       /\ (1 = 1 -> Attempt info = 1)
       /\ ID (WorkflowExecution_ info) = "wf-1"
       /\ RunID (WorkflowExecution_ info) = "run-1"
       /\ WorkflowExecution_ info = {| ID := "wf-1"; RunID := "run-1" |}.
Proof.
  split; [reflexivity |].
  exact (@C8_attach_then_read sampleHandles sampleCollaborators
           Background sampleTask {| WorkflowId := "wf-1"; RunId := "run-1" |}
           "orders" (Some false) [] tt tt (Some tt) [] (Some tt) eq_refl).
Defined.

(** * The further properties on the concrete instance *)

Lemma X2_remote_info_fields_witness :
  task_WorkflowExecution negativeTask = Some {| WorkflowId := "wf-2"; RunId := "run-2" |}
  /\ exists ctx' info,
       sampleAttach negativeTask false = Returned ctx'
       /\ GetActivityInfo ctx' = Returned info
       /\ TaskToken info = None
       /\ ActivityID info = "9"
       /\ TaskQueue info = "orders"
       /\ WorkflowNamespace info = "default"
       /\ HeartbeatTimeout info = 0
       /\ ScheduledTime info = sampleT0
       /\ StartedTime info = sampleT0 + 2 * second
       /\ ActivityType_Name (ActivityType_ info) = ""
       /\ exists wt, WorkflowType_ info = Some wt /\ WorkflowType_Name wt = "".
Proof.
  split; [reflexivity |].
  exact (@X2_remote_info_fields sampleHandles sampleCollaborators
           Background negativeTask {| WorkflowId := "wf-2"; RunId := "run-2" |}
           "orders" (Some false) [] tt tt (Some tt) [] (Some tt) eq_refl).
Defined.

Lemma X3_remote_deadline_bounds_witness :
  task_WorkflowExecution lateTask = Some {| WorkflowId := "wf-1"; RunId := "run-1" |}
  /\ exists ctx' info,
       sampleAttach lateTask false = Returned ctx'
       /\ GetActivityInfo ctx' = Returned info
       /\ Deadline info <= Time_Add (sampleT0 + 5 * second) (10 * second)
       /\ (1 * second > 0 -> Deadline info <= Time_Add sampleT0 (1 * second))
       /\ (Deadline info = Time_Add (sampleT0 + 5 * second) (10 * second)
           \/ Deadline info = Time_Add sampleT0 (1 * second)).
Proof.
  split; [reflexivity |].
  exact (@X3_remote_deadline_bounds sampleHandles sampleCollaborators
           Background lateTask {| WorkflowId := "wf-1"; RunId := "run-1" |}
           "orders" (Some false) [] tt tt (Some tt) [] (Some tt) eq_refl).
Defined.

Lemma X4_negative_schedule_to_close_ignored_witness :
  task_WorkflowExecution negativeTask = Some {| WorkflowId := "wf-2"; RunId := "run-2" |}
  /\ - (1 * second) < 0
  /\ exists ctx' info,
       sampleAttach negativeTask false = Returned ctx'
       /\ GetActivityInfo ctx' = Returned info
       /\ Deadline info = Time_Add (sampleT0 + 2 * second) (10 * second).
Proof.
  split; [reflexivity |]. split; [reflexivity |].
  exact (@X4_negative_schedule_to_close_ignored sampleHandles sampleCollaborators
           Background negativeTask {| WorkflowId := "wf-2"; RunId := "run-2" |}
           "orders" (Some false) [] tt tt (Some tt) [] (Some tt) eq_refl eq_refl).
Defined.


Lemma X6_remote_scope_and_stop_channel_witness :
  task_WorkflowExecution sampleTask = Some {| WorkflowId := "wf-1"; RunId := "run-1" |}
  /\ exists ctx',
       sampleAttach sampleTask false = Returned ctx'
       /\ GetActivityMetricsScope ctx' = Returned (tt : @Scope sampleHandles)
       /\ GetWorkerStopChannel ctx' = Returned (Some (tt : @StopChannel sampleHandles)).
Proof.
  split; [reflexivity |].
  exact (@X6_remote_scope_and_stop_channel sampleHandles sampleCollaborators
           Background sampleTask {| WorkflowId := "wf-1"; RunId := "run-1" |}
           "orders" (Some false) [] tt tt (Some tt) [] (Some tt) eq_refl).
Defined.

Lemma X9_attach_then_heartbeat_witness :
  task_WorkflowExecution sampleTask = Some {| WorkflowId := "wf-1"; RunId := "run-1" |}
  /\ exists ctx',
       sampleAttach sampleTask true = Returned ctx'
       /\ RecordActivityHeartbeat (C := sampleCollaborators) ctx' [Some 3%nat] sampleWorld
          = (Returned tt,
             {| invokerState := 1%nat : @InvokerState sampleHandles;
                memory := [] : @Memory sampleHandles;
                trace :=
                  [EvEncodeArgs (H := sampleHandles) tt [Some 3%nat];
                   EvHeartbeat (H := sampleHandles) true ctx' (Some [Some 3%nat]) false;
                   EvDebug (H := sampleHandles)
                     ["ActivityID"; "5"; "ActivityType"; "Charge"; "Attempt";
                      "WorkflowType"; "Order"; "WorkflowID"; "wf-1";
                      "RunID"; "run-1"]
                     "RecordActivityHeartbeat with error"
                     [LStr (H := sampleHandles) "Error";
                      LErr (H := sampleHandles) "activity canceled"]] |}).
Proof.
  split; [reflexivity |].
  destruct (@X9_attach_then_heartbeat sampleHandles sampleCollaborators
              Background sampleTask {| WorkflowId := "wf-1"; RunId := "run-1" |}
              "orders" true [] tt tt (Some tt) [] (Some tt)
              [Some 3%nat] sampleWorld eq_refl) as (ctx' & Hret & Hall).
  exists ctx'. split; [exact Hret |].
  exact (Hall (Some [Some 3%nat]) (Some "activity canceled") 1%nat eq_refl eq_refl).
Defined.

Lemma X10_nil_invoker_panics_witness :
  exists env : @activityEnvironment sampleHandles,
    getActivityEnv sampleNoInvokerContext = Returned env
    /\ isLocalActivity env = false
    /\ serviceInvoker env = None
    /\ @encodeArgs sampleHandles sampleCollaborators tt [Some 3%nat]
       = (Some [Some 3%nat], None)
    /\ exists w' : @World sampleHandles,
         RecordActivityHeartbeat (C := sampleCollaborators)
           sampleNoInvokerContext [Some 3%nat] sampleWorld
         = (Panicked (PanicRuntime (H := sampleHandles)
                        "invalid memory address or nil pointer dereference"), w')
         /\ invokerState w' = invokerState sampleWorld
         /\ memory w' = memory sampleWorld
         /\ heartbeatCalls (trace w') = heartbeatCalls (trace sampleWorld).
Proof.
  eexists. split; [reflexivity |]. split; [reflexivity |]. split; [reflexivity |].
  split; [reflexivity |].
  exact (@X10_nil_invoker_panics sampleHandles sampleCollaborators
           sampleNoInvokerContext _ [Some 3%nat] sampleWorld (Some [Some 3%nat])
           eq_refl eq_refl eq_refl eq_refl).
Defined.

Lemma X12_heartbeat_returns_iff_encoding_succeeds_witness :
  exists env : @activityEnvironment sampleHandles,
    getActivityEnv (sampleRemoteContext sampleTask true) = Returned env
    /\ isLocalActivity env = false
    /\ serviceInvoker env = Some true
    /\ (fst (RecordActivityHeartbeat (C := sampleCollaborators)
               (sampleRemoteContext sampleTask true) [Some 0%nat] sampleWorld)
        = Returned tt
        <-> (@hasDetails sampleHandles [Some 0%nat] = false
             \/ snd (@encodeArgs sampleHandles sampleCollaborators tt [Some 0%nat])
                = None)).
Proof.
  eexists. split; [reflexivity |]. split; [reflexivity |]. split; [reflexivity |].
  exact (@X12_heartbeat_returns_iff_encoding_succeeds sampleHandles sampleCollaborators
           (sampleRemoteContext sampleTask true) _ true [Some 0%nat] sampleWorld
           eq_refl eq_refl eq_refl).
Defined.

Lemma X15_attach_then_heartbeat_details_witness :
  task_WorkflowExecution lateTask = Some {| WorkflowId := "wf-1"; RunId := "run-1" |}
  /\ exists ctx',
       sampleAttach lateTask false = Returned ctx'
       /\ HasHeartbeatDetails ctx' = Returned true
       /\ GetHeartbeatDetails (C := sampleCollaborators) ctx' [None] sampleWorld
          = (Returned None,
             {| invokerState := 0%nat : @InvokerState sampleHandles;
                memory := [Some 7%nat] : @Memory sampleHandles;
                trace := [] |}).
Proof.
  split; [reflexivity |].
  destruct (@X15_attach_then_heartbeat_details sampleHandles sampleCollaborators
              Background lateTask {| WorkflowId := "wf-1"; RunId := "run-1" |}
              "orders" (Some false) [] tt tt (Some tt) [] (Some tt) eq_refl)
    as (ctx' & Hret & Hhas & Hget).
  exists ctx'. split; [exact Hret |]. split; [exact Hhas |].
  exact (Hget [Some 7%nat] [None] sampleWorld None [Some 7%nat] eq_refl eq_refl).
Defined.

Lemma X13_two_heartbeats_witness :
  exists env : @activityEnvironment sampleHandles,
    getActivityEnv (sampleRemoteContext sampleTask true) = Returned env
    /\ isLocalActivity env = false
    /\ serviceInvoker env = Some true
    /\ @encodeArgs sampleHandles sampleCollaborators tt [Some 3%nat]
       = (Some [Some 3%nat], None)
    /\ exists w' : @World sampleHandles,
         bind (RecordActivityHeartbeat (C := sampleCollaborators)
                 (sampleRemoteContext sampleTask true) [None])
              (fun _ => RecordActivityHeartbeat (C := sampleCollaborators)
                          (sampleRemoteContext sampleTask true) [Some 3%nat])
              sampleWorld
         = (Returned tt, w')
         /\ invokerState w' = 2%nat
         /\ memory w' = memory sampleWorld
         /\ heartbeatCalls (trace w') = 2%nat.
Proof.
  eexists. split; [reflexivity |]. split; [reflexivity |]. split; [reflexivity |].
  split; [reflexivity |].
  destruct (@X13_two_heartbeats sampleHandles sampleCollaborators
              (sampleRemoteContext sampleTask true) _ true [None] [Some 3%nat]
              sampleWorld None (Some [Some 3%nat])
              (Some "activity canceled") (Some "activity canceled") 1%nat 2%nat
              eq_refl eq_refl eq_refl eq_refl eq_refl eq_refl eq_refl)
    as (w' & Hrun & Hs & Hm & Hn & _).
  exists w'. repeat split; assumption.
Defined.
